(** * The terraform executor of bosh-bootloader

    A shallow embedding of [terraform/executor.go]: the variable formatter
    [formatVars], the shared argument assembly [runTFCommandWithEnvs], and the
    commands [Init], [Apply], [Destroy], [Version], [Output], [Outputs] and
    [IsPaved], together with the pieces of Go's standard library they call
    ([strings], [path/filepath] for Unix paths, [unicode/utf8] and the single
    regular expression handed to [regexp]).  Of [Setup] the text it writes
    to [bbl.tfvars] is covered, [formatVars].

    Go strings are byte sequences; they are embedded as [string], one [ascii]
    per byte.  The three collaborators of the executor (process runner, state
    store, file system) are interfaces in the source and records of
    operations over an abstract world here; every interaction is recorded in
    a trace so that statements can speak about the calls that were made. *)

From Stdlib Require Import String Ascii List Bool Arith Lia.
From stdpp Require Import base gmap strings list.

Local Open Scope string_scope.
Local Open Scope list_scope.
Local Open Scope stdpp_scope.

(** ** Bytes that cannot be written inside a literal *)

Definition newline : ascii := "010"%char.
Definition dquote : ascii := "034"%char.
Definition backslash : ascii := "092"%char.
Definition slash : ascii := "/"%char.

Definition str1 (c : ascii) : string := String c EmptyString.

(** ** Package [strings] *)

(** [s[n:]] for [n <= len(s)]. *)
Fixpoint slice_from (n : nat) (s : string) : string :=
  match n, s with
  | S n', String _ s' => slice_from n' s'
  | _, _ => s
  end.

(** [s[:n]] for [n <= len(s)]. *)
Fixpoint slice_to (n : nat) (s : string) : string :=
  match n, s with
  | S n', String c s' => String c (slice_to n' s')
  | _, _ => EmptyString
  end.

(** [len(s) >= len(prefix) && s[:len(prefix)] == prefix] *)
Definition strings_HasPrefix (s prefix : string) : bool :=
  Nat.leb (String.length prefix) (String.length s)
  && String.eqb (slice_to (String.length prefix) s) prefix.

(** [len(s) >= len(suffix) && s[len(s)-len(suffix):] == suffix] *)
Definition strings_HasSuffix (s suffix : string) : bool :=
  Nat.leb (String.length suffix) (String.length s)
  && String.eqb (slice_from (String.length s - String.length suffix) s) suffix.

(** [if HasSuffix(s, suffix) { return s[:len(s)-len(suffix)] }; return s] *)
Definition strings_TrimSuffix (s suffix : string) : string :=
  if strings_HasSuffix s suffix
  then slice_to (String.length s - String.length suffix) s
  else s.

(** [Index(s, substr) >= 0]: [substr] starts at some offset of [s]. *)
Fixpoint strings_Contains (s substr : string) : bool :=
  strings_HasPrefix s substr
  || match s with
     | EmptyString => false
     | String _ s' => strings_Contains s' substr
     end.

(** The scan of [Replace(s, old, new, -1)] for a non-empty [old]: leftmost,
    non-overlapping occurrences of [old] are replaced by [new].  [skip]
    counts the bytes of a replaced occurrence that are still to be dropped. *)
Fixpoint replace_scan (old new : string) (skip : nat) (s : string) : string :=
  match s with
  | EmptyString => EmptyString
  | String c s' =>
      match skip with
      | S k => replace_scan old new k s'
      | O =>
          if strings_HasPrefix s old
          then new +:+ replace_scan old new (String.length old - 1) s'
          else String c (replace_scan old new 0 s')
      end
  end.

(** [strings.Replace(s, old, new, -1)].  The source only calls it with the
    one-byte [old] newline; the empty [old] (insertion between runes) is not
    covered and leaves [s] as it is. *)
Definition strings_Replace (s old new : string) : string :=
  if String.eqb old new then s
  else match old with
       | EmptyString => s
       | String _ _ => replace_scan old new 0 s
       end.

(** [strings.Join(elems, sep)] *)
Fixpoint strings_Join (elems : list string) (sep : string) : string :=
  match elems with
  | [] => EmptyString
  | [x] => x
  | x :: rest => x +:+ sep +:+ strings_Join rest sep
  end.

(** ** The variable formatter *)

(** A value of type [interface{}] as [formatVars] tells them apart: a
    [string], a [[]string], or a value of any other dynamic type, kept as
    the text the verb [%s] prints for it (a [[]byte] prints its bytes, a
    named string type its characters). *)
Inductive value : Type :=
| VString (s : string)
| VStrings (l : list string)
| VOther (rendered : string).

(** The text the final [Sprintf] prints for [value] after the type switch of
    one loop iteration. *)
Definition formatVars_value (v : value) : string :=
  match v with
  | VString s =>
      let vString := str1 dquote +:+ s +:+ str1 dquote in
      if strings_Contains vString (str1 newline)
      then strings_Replace vString (str1 newline) (String backslash "n")
      else vString
  | VStrings valList =>
      "[" +:+ str1 dquote
          +:+ strings_Join valList (String dquote (String "," (str1 dquote)))
          +:+ str1 dquote +:+ "]"
  | VOther rendered => rendered
  end.

(** One iteration: [formattedVars = Sprintf("%s\n%s=%s", formattedVars, name, value)]. *)
Definition formatVars_step (formattedVars : string) (entry : string * value) : string :=
  formattedVars +:+ str1 newline +:+ entry.1 +:+ "=" +:+ formatVars_value entry.2.

(** The loop of [formatVars] over the entries in the order [range] visits them. *)
Definition formatVars_range (entries : list (string * value)) : string :=
  fold_left formatVars_step entries EmptyString.

(** Go leaves the iteration order of a map unspecified: [range] visits every
    entry once, in some order. *)
Definition range_order {V : Type} (m : gmap string V) (l : list (string * V)) : Prop :=
  l ≡ₚ map_to_list m.

(** [formatVars inputs out]: [out] is a possible result of [formatVars(inputs)]. *)
Definition formatVars (inputs : gmap string value) (out : string) : Prop :=
  ∃ l, range_order inputs l ∧ out = formatVars_range l.

(** ** Errors and results *)

(** A Go [error], kept as the text of its [Error()] method. *)
Definition error : Type := string.

(** A pair [(value, error)] as the source returns it: the value when the
    error is [nil], the error otherwise. *)
Inductive result (A : Type) : Type :=
| Ok (a : A)
| Err (e : error).
Arguments Ok {A} a.
Arguments Err {A} e.

(** [fmt.Errorf(prefix + "%s", err)] *)
Definition Errorf (prefix : string) (err : error) : error := prefix +:+ err.

(** ** Package [path/filepath], Unix separator *)

(** The elements of a path between its separators. *)
Fixpoint split_on (sep : ascii) (s : string) : list string :=
  match s with
  | EmptyString => [EmptyString]
  | String c s' =>
      if Ascii.eqb c sep then EmptyString :: split_on sep s'
      else match split_on sep s' with
           | h :: t => String c h :: t
           | [] => [str1 c]
           end
  end.

(** One element read by the loop of [Clean]; [out] holds the elements
    written so far, last one first.  Empty and [.] elements are dropped, a
    [..] element removes the last real element when there is one, is
    dropped at the root, and is kept otherwise. *)
Definition clean_step (rooted : bool) (out : list string) (elem : string) : list string :=
  if String.eqb elem "" || String.eqb elem "." then out
  else if String.eqb elem ".." then
    match out with
    | top :: rest =>
        if String.eqb top ".." then (if rooted then out else ".." :: out) else rest
    | [] => if rooted then [] else [".."]
    end
  else elem :: out.

(** [filepath.Clean(path)] *)
Definition filepath_Clean (path : string) : string :=
  match path with
  | EmptyString => "."
  | String c _ =>
      let rooted := Ascii.eqb c slash in
      let out := rev (fold_left (clean_step rooted) (split_on slash path) []) in
      let body := strings_Join out "/" in
      if rooted then "/" +:+ body
      else if String.eqb body "" then "." else body
  end.

(** [filepath.Join(elem...)]: the elements from the first non-empty one on,
    joined by the separator and cleaned. *)
Fixpoint filepath_Join (elem : list string) : string :=
  match elem with
  | [] => EmptyString
  | e :: rest =>
      if String.eqb e "" then filepath_Join rest
      else filepath_Clean (strings_Join elem "/")
  end.

(** The loop of [Rel] that positions [base] and [targ] at their first
    differing elements.  It runs while both remainders are non-empty; the
    flag tells whether it left through [break]. *)
Fixpoint rel_walk (base targ : list string) : list string * list string * bool :=
  match base, targ with
  | b :: bs, t :: ts =>
      if String.eqb (strings_Join base "/") "" || String.eqb (strings_Join targ "/") ""
      then (base, targ, false)
      else if String.eqb b t then rel_walk bs ts
      else (base, targ, true)
  | _, _ => (base, targ, false)
  end.

(** [strings.Count(s, "/")] *)
Fixpoint count_slash (s : string) : nat :=
  match s with
  | EmptyString => 0
  | String c s' => (if Ascii.eqb c slash then 1 else 0) + count_slash s'
  end.

Fixpoint repeat_string (n : nat) (s : string) : string :=
  match n with
  | O => EmptyString
  | S n' => s +:+ repeat_string n' s
  end.

Definition starts_with_slash (s : string) : bool :=
  match s with
  | String c _ => Ascii.eqb c slash
  | EmptyString => false
  end.

(** [filepath.Rel(basepath, targpath)] *)
Definition filepath_Rel (basepath targpath : string) : result string :=
  let cannot := Err ("Rel: can't make " +:+ targpath +:+ " relative to " +:+ basepath) in
  let base := filepath_Clean basepath in
  let targ := filepath_Clean targpath in
  if String.eqb targ base then Ok "."
  else
    let base := if String.eqb base "." then "" else base in
    if negb (Bool.eqb (starts_with_slash base) (starts_with_slash targ)) then cannot
    else
      let '(rb, rt, broke) :=
        rel_walk (if String.eqb base "" then [] else split_on slash base)
                 (split_on slash targ) in
      if broke && String.eqb (hd "" rb) ".." then cannot
      else
        let rest_base := strings_Join rb "/" in
        let rest_targ := strings_Join rt "/" in
        if String.eqb rest_base "" then Ok rest_targ
        else Ok (".." +:+ repeat_string (count_slash rest_base) "/.."
                      +:+ (if String.eqb rest_targ "" then "" else "/" +:+ rest_targ)).

(** ** Package [unicode/utf8] *)

Definition byte_between (lo hi : nat) (c : ascii) : bool :=
  Nat.leb lo (nat_of_ascii c) && Nat.leb (nat_of_ascii c) hi.

(** The width [DecodeRuneInString] reports for the rune at the head of a
    non-empty [s]: 1 for ASCII and for every invalid or truncated
    encoding, otherwise the length announced by the first byte when the
    continuation bytes are in the accepted ranges. *)
Definition utf8_width (s : string) : nat :=
  match s with
  | EmptyString => 0
  | String c0 rest =>
      let b := nat_of_ascii c0 in
      if Nat.ltb b 194 then 1
      else if Nat.ltb b 224 then
        match rest with
        | String c1 _ => if byte_between 128 191 c1 then 2 else 1
        | _ => 1
        end
      else if Nat.ltb b 240 then
        let lo := if Nat.eqb b 224 then 160 else 128 in
        let hi := if Nat.eqb b 237 then 159 else 191 in
        match rest with
        | String c1 (String c2 _) =>
            if byte_between lo hi c1 && byte_between 128 191 c2 then 3 else 1
        | _ => 1
        end
      else if Nat.ltb b 245 then
        let lo := if Nat.eqb b 240 then 144 else 128 in
        let hi := if Nat.eqb b 244 then 143 else 191 in
        match rest with
        | String c1 (String c2 (String c3 _)) =>
            if byte_between lo hi c1 && byte_between 128 191 c2 && byte_between 128 191 c3
            then 4 else 1
        | _ => 1
        end
      else 1
  end.

Fixpoint decode_runes (fuel : nat) (s : string) : list string :=
  match fuel, s with
  | S fuel', String _ _ =>
      let w := utf8_width s in
      slice_to w s :: decode_runes fuel' (slice_from w s)
  | _, _ => []
  end.

(** The runes of [s], each as the bytes that encode it.  Every rune is at
    least one byte wide, so [len(s)] steps always reach the end. *)
Definition utf8_runes (s : string) : list string :=
  decode_runes (String.length s) s.

(** ** Package [regexp], as far as the pattern of [Version] needs it *)

Inductive re_class : Type :=
| ClassDigit               (* \d : an ASCII digit *)
| ClassAnyNotNL            (* .  : any rune but the newline *)
| ClassByte (b : ascii).   (* an escaped or ordinary ASCII character *)

Inductive re_item : Type :=
| ReOne (c : re_class)
| RePlus (c : re_class).  (* greedy one-or-more *)

Definition class_matches (c : re_class) (rune : string) : bool :=
  match c with
  | ClassDigit =>
      match rune with
      | String d EmptyString => byte_between 48 57 d
      | _ => false
      end
  | ClassAnyNotNL => negb (String.eqb rune (str1 newline))
  | ClassByte b => String.eqb rune (str1 b)
  end.

(** A backtracking match of the items at the head of the runes; a greedy
    repetition first tries one more rune, then the rest of the pattern. *)
Fixpoint match_here (re : list re_item) : list string → option (list string) :=
  match re with
  | [] => λ _, Some []
  | ReOne c :: rest =>
      λ rs, match rs with
            | r :: rs' =>
                if class_matches c r then cons r <$> match_here rest rs' else None
            | [] => None
            end
  | RePlus c :: rest =>
      let more :=
        fix more (rs : list string) : option (list string) :=
          let again :=
            match rs with
            | r :: rs' => if class_matches c r then cons r <$> more rs' else None
            | [] => None
            end in
          match again with
          | Some m => Some m
          | None => match_here rest rs
          end in
      λ rs, match rs with
            | r :: rs' => if class_matches c r then cons r <$> more rs' else None
            | [] => None
            end
  end.

(** The leftmost match: the first start position at which the pattern
    matches. *)
Fixpoint find_runes (re : list re_item) (rs : list string) : option (list string) :=
  match match_here re rs with
  | Some m => Some m
  | None =>
      match rs with
      | _ :: rs' => find_runes re rs'
      | [] => None
      end
  end.

Fixpoint concat_strings (l : list string) : string :=
  match l with
  | [] => EmptyString
  | x :: rest => x +:+ concat_strings rest
  end.

(** [regexp.FindString]: the text of the leftmost match, or the empty
    string when there is none. *)
Definition regexp_FindString (re : list re_item) (s : string) : string :=
  match find_runes re (utf8_runes s) with
  | Some m => concat_strings m
  | None => EmptyString
  end.

(** [regexp.MustCompile(`\d+.\d+.\d+`)]: the two dots are not escaped in
    the source, so each of them is the any-character class. *)
Definition version_regex : list re_item :=
  [RePlus ClassDigit; ReOne ClassAnyNotNL; RePlus ClassDigit;
   ReOne ClassAnyNotNL; RePlus ClassDigit].

(** ** The collaborators of the executor *)

(** Where a subprocess writes its standard output: [os.Stdout], or a fresh
    [bytes.Buffer] whose content the executor reads afterwards. *)
Inductive sink : Type :=
| Stdout
| Buffer.

(** One invocation of the process runner.  [c_envs] is [None] for [Run]
    and the environment overrides for [RunWithEnv]. *)
Record call : Type := Call {
  c_sink : sink;
  c_dir : string;
  c_args : list string;
  c_envs : option (list string);
  c_debug : bool;
}.

(** What the executor exchanged with its collaborators, in order. *)
Inductive event : Type :=
| EvGetTerraformDir (r : result string)
| EvGetVarsDir (r : result string)
| EvReadDir (dir : string) (r : result (list string))
| EvStat (path : string) (err : option error)
| EvRun (c : call) (out : string) (err : option error).

Section Executor.

(** The state of everything outside the executor: the file system, the
    state store and the engine's processes. *)
Context {W : Type}.

(** [terraformCmd]: both methods answer with the bytes written to the
    sink and the error, [None] for [nil]. *)
Record terraformCmd : Type := {
  Run : sink → string → list string → bool → W → (string * option error) * W;
  RunWithEnv : sink → string → list string → list string → bool → W
               → (string * option error) * W;
}.

Record stateStore : Type := {
  GetTerraformDir : W → result string * W;
  GetVarsDir : W → result string * W;
}.

(** The part of [fs] the commands use; [ReadDir] answers with the names of
    the entries, the only field of [os.FileInfo] that is read, and [Stat]
    with its error. *)
Record fs : Type := {
  ReadDir : string → W → result (list string) * W;
  Stat : string → W → option error * W;
}.

Record Executor : Type := {
  cmd : terraformCmd;
  store : stateStore;
  files : fs;
  debug : bool;
}.

(** *** Computations: state, early return on error, trace *)

Definition M (A : Type) : Type := W → result A * W * list event.

Definition ret {A} (a : A) : M A := λ w, (Ok a, w, []).

Definition fail {A} (e : error) : M A := λ w, (Err e, w, []).

Definition bind {A B} (m : M A) (k : A → M B) : M B :=
  λ w, match m w with
       | (Ok a, w', t) => let '(r, w'', t') := k a w' in (r, w'', t ++ t')
       | (Err e, w', t) => (Err e, w', t)
       end.

(** Rewrites the error of a failing computation, as the [if err != nil]
    after a call does. *)
Definition mapErr {A} (f : error → error) (m : M A) : M A :=
  λ w, match m w with
       | (Err e, w', t) => (Err (f e), w', t)
       | other => other
       end.

Definition lift {A} (r : result A) : M A := λ w, (r, w, []).

Definition getTerraformDir (e : Executor) : M string :=
  λ w, let '(r, w') := GetTerraformDir (store e) w in (r, w', [EvGetTerraformDir r]).

Definition getVarsDir (e : Executor) : M string :=
  λ w, let '(r, w') := GetVarsDir (store e) w in (r, w', [EvGetVarsDir r]).

Definition readDir (e : Executor) (dir : string) : M (list string) :=
  λ w, let '(r, w') := ReadDir (files e) dir w in (r, w', [EvReadDir dir r]).

Definition stat (e : Executor) (path : string) : M (option error) :=
  λ w, let '(err, w') := Stat (files e) path w in (Ok err, w', [EvStat path err]).

Definition answer (out : string) (err : option error) : result string :=
  match err with
  | None => Ok out
  | Some x => Err x
  end.

(** [e.cmd.Run(stdout, dir, args, debug)]: fails with the runner's error,
    otherwise yields what was written to [stdout]. *)
Definition run (e : Executor) (stdout : sink) (dir : string) (args : list string)
    (dbg : bool) : M string :=
  λ w, let '((out, err), w') := Run (cmd e) stdout dir args dbg w in
       (answer out err, w', [EvRun (Call stdout dir args None dbg) out err]).

(** [e.cmd.RunWithEnv(stdout, dir, args, envs, debug)] *)
Definition runWithEnv (e : Executor) (stdout : sink) (dir : string)
    (args envs : list string) (dbg : bool) : M string :=
  λ w, let '((out, err), w') := RunWithEnv (cmd e) stdout dir args envs dbg w in
       (answer out err, w', [EvRun (Call stdout dir args (Some envs) dbg) out err]).

End Executor.

Arguments terraformCmd W : clear implicits.
Arguments stateStore W : clear implicits.
Arguments fs W : clear implicits.
Arguments Executor W : clear implicits.
Arguments M W A : clear implicits.

Notation "'let*' x ':=' m 'in' k" := (bind m (λ x, k))
  (at level 10, x name, m at level 100, k at level 200, only parsing).
Notation "'let*' '_' ':=' m 'in' k" := (bind m (λ _, k))
  (at level 10, m at level 100, k at level 200, only parsing).

(** ** The executor *)

Definition redactedError : string :=
  "Some output has been redacted, use `bbl latest-error` to see it or run again with --debug for additional debug output".

(** An entry of the decoded output report. *)
Record tfOutput (Any : Type) : Type := {
  Sensitive : bool;
  Type_ : string;
  Value : Any;
}.
Arguments Sensitive {Any} _.
Arguments Type_ {Any} _.
Arguments Value {Any} _.

(** The loop of [runTFCommandWithEnvs] over the entries of the vars
    directory: every name ending in [.tfvars] adds [-var-file] and the
    file's path relative to the terraform directory. *)
Fixpoint varFileArgs (terraformDir varsDir : string) (varsFiles : list string)
    (args : list string) : result (list string) :=
  match varsFiles with
  | [] => Ok args
  | file :: rest =>
      if strings_HasSuffix file ".tfvars" then
        match filepath_Rel terraformDir (filepath_Join [varsDir; file]) with
        | Err err => Err (Errorf "Get relative terraform vars path: " err)
        | Ok relativeFilePath =>
            varFileArgs terraformDir varsDir rest (args ++ ["-var-file"; relativeFilePath])
        end
      else varFileArgs terraformDir varsDir rest args
  end.

(** The loop of [Apply] and [Destroy] over the credentials, in the order
    [range] visits them. *)
Definition credentialArgs (args : list string) (credentials : list (string * string))
    : list string :=
  fold_left (λ args kv, args ++ ["-var"; kv.1 +:+ "=" +:+ kv.2]) credentials args.

Section Commands.

Context {W : Type}.

(** The dynamic type behind [interface{}] in a decoded output, and
    [json.Unmarshal] into a [map[string]tfOutput]. *)
Context {Any : Type}.
Variable json_Unmarshal : string → result (gmap string (tfOutput Any)).

Definition runTFCommandWithEnvs (e : Executor W) (args envs : list string) : M W unit :=
  let* varsDir := getVarsDir e in
  let tfStatePath := filepath_Join [varsDir; "terraform.tfstate"] in
  let* terraformDir := getTerraformDir e in
  let* relativeStatePath :=
    mapErr (Errorf "Get relative terraform state path: ")
           (lift (filepath_Rel terraformDir tfStatePath)) in
  let args := args ++ ["-state"; relativeStatePath] in
  let* varsFiles :=
    mapErr (Errorf "Read contents of vars directory: ") (readDir e varsDir) in
  let* args := lift (varFileArgs terraformDir varsDir varsFiles args) in
  let* _ :=
    mapErr (λ err, if debug e then err else redactedError)
           (runWithEnv e Stdout terraformDir args envs (debug e)) in
  ret tt.

Definition runTFCommand (e : Executor W) (args : list string) : M W unit :=
  runTFCommandWithEnvs e args [].

Definition Init (e : Executor W) : M W unit :=
  let* terraformDir := getTerraformDir e in
  let* _ :=
    mapErr (Errorf "Run terraform init: ")
           (run e Stdout terraformDir ["init"] (debug e)) in
  ret tt.

(** [credentials] is the map of the source as the sequence of entries its
    [range] loop visits. *)
Definition Apply (e : Executor W) (credentials : list (string * string)) : M W unit :=
  runTFCommand e (credentialArgs ["apply"; "--auto-approve"] credentials).

Definition Destroy (e : Executor W) (credentials : list (string * string)) : M W unit :=
  runTFCommandWithEnvs e (credentialArgs ["destroy"; "-force"] credentials)
                       ["TF_WARN_OUTPUT_ERRORS=1"].

Definition Version (e : Executor W) : M W string :=
  let* versionOutput := run e Buffer "/tmp" ["version"] true in
  let version := regexp_FindString version_regex versionOutput in
  if String.eqb version "" then fail "Terraform version could not be parsed"
  else ret version.

Definition Output (e : Executor W) (outputName : string) : M W string :=
  let* terraformDir := getTerraformDir e in
  let* varsDir := getVarsDir e in
  let* _ :=
    mapErr (Errorf "Run terraform init in terraform dir: ")
           (run e Stdout terraformDir ["init"] (debug e)) in
  let args := ["output"; outputName] in
  let* err := stat e (filepath_Join [varsDir; "terraform.tfstate"]) in
  let args :=
    match err with
    | None => args ++ ["-state"; filepath_Join [varsDir; "terraform.tfstate"]]
    | Some _ => args
    end in
  let* buffer :=
    mapErr (Errorf "Run terraform output -state: ")
           (run e Buffer terraformDir args true) in
  ret (strings_TrimSuffix buffer (str1 newline)).

Definition Outputs (e : Executor W) : M W (gmap string Any) :=
  let* terraformDir := getTerraformDir e in
  let* varsDir := getVarsDir e in
  let* _ :=
    mapErr (Errorf "Run terraform init in terraform dir: ")
           (run e Stdout terraformDir ["init"] false) in
  let args := ["output"; "--json"] in
  let* err := stat e (filepath_Join [varsDir; "terraform.tfstate"]) in
  let args :=
    match err with
    | None => args ++ ["-state"; filepath_Join [varsDir; "terraform.tfstate"]]
    | Some _ => args
    end in
  let* buffer :=
    mapErr (Errorf "Run terraform output --json in vars dir: ")
           (run e Buffer terraformDir args true) in
  let* tfOutputs :=
    mapErr (Errorf "Unmarshal terraform output: ") (lift (json_Unmarshal buffer)) in
  ret (Value <$> tfOutputs).

Definition IsPaved (e : Executor W) : M W bool :=
  let* terraformDir := getTerraformDir e in
  let* _ :=
    mapErr (Errorf "Run terraform init in terraform dir: ")
           (run e Stdout terraformDir ["init"] false) in
  let* varsDir := getVarsDir e in
  let args := ["show"] in
  let* err := stat e (filepath_Join [varsDir; "terraform.tfstate"]) in
  let args :=
    match err with
    | None => args ++ ["-state"; filepath_Join [varsDir; "terraform.tfstate"]]
    | Some _ => args
    end in
  let* buffer :=
    mapErr (Errorf "Run terraform show: ")
           (run e Buffer terraformDir args true) in
  if String.eqb buffer "No state." then ret false else ret true.

End Commands.

(** Projections of a finished computation. *)
Definition outcome {W A} (x : result A * W * list event) : result A := x.1.1.
Definition trace {W A} (x : result A * W * list event) : list event := x.2.

(** ** Scripted collaborators

    Collaborators that answer from a script, like the fakes of the
    package's tests: the world is trivial, the state store knows two
    directories, the file system one listing and one answer to [Stat], and
    the runner answers each invocation through [respond]. *)
Module Fakes.

Definition scripted_cmd (respond : call → string * option error) : terraformCmd unit := {|
  Run stdout dir args dbg w := (respond (Call stdout dir args None dbg), w);
  RunWithEnv stdout dir args envs dbg w :=
    (respond (Call stdout dir args (Some envs) dbg), w);
|}.

Definition scripted_store (terraformDir varsDir : string) : stateStore unit := {|
  GetTerraformDir w := (Ok terraformDir, w);
  GetVarsDir w := (Ok varsDir, w);
|}.

Definition scripted_fs (listing : list string) (statErr : option error) : fs unit := {|
  ReadDir dir w := (Ok listing, w);
  Stat path w := (statErr, w);
|}.

Definition executor (respond : call → string * option error)
    (listing : list string) (statErr : option error) (dbg : bool) : Executor unit := {|
  cmd := scripted_cmd respond;
  store := scripted_store "/env/terraform" "/env/vars";
  files := scripted_fs listing statErr;
  debug := dbg;
|}.

(** A runner that always succeeds and writes [out]. *)
Definition succeed (out : string) (c : call) : string * option error := (out, None).

(** A runner whose [init] succeeds and whose other subcommands fail. *)
Definition init_only (err : error) (c : call) : string * option error :=
  match c_args c with
  | ["init"] => ("", None)
  | _ => ("", Some err)
  end.

(** A runner that always fails. *)
Definition refuse (err : error) (c : call) : string * option error := ("", Some err).

(** No decoder is needed where the run never reaches [json.Unmarshal]. *)
Definition no_json (buffer : string) : result (gmap string (tfOutput unit)) :=
  Err "unexpected end of JSON input".

End Fakes.

(** ** What the specification says, in its own words *)

(** "Embedded newline characters inside a scalar are escaped to a literal
    two-character sequence (backslash-n)": every byte is kept, except the
    newline, which becomes a backslash followed by [n]. *)
Fixpoint spec_escape_newlines (s : string) : string :=
  match s with
  | EmptyString => EmptyString
  | String c s' =>
      if Ascii.eqb c newline then String backslash (String "n" (spec_escape_newlines s'))
      else String c (spec_escape_newlines s')
  end.

(** "The first semantic-version-shaped substring": digits, a literal dot,
    digits, a literal dot, digits. *)
Definition spec_version_regex : list re_item :=
  [RePlus ClassDigit; ReOne (ClassByte "."); RePlus ClassDigit;
   ReOne (ClassByte "."); RePlus ClassDigit].

(** What [Output], [Outputs] and [IsPaved] do with the state file, read off
    a trace [tr]: the vars directory was resolved, the state file joined
    onto it was looked up, and the invocation [c] carries the command's own
    arguments [base], followed by [-state] and that joined path exactly
    when the lookup succeeded. *)
Definition state_pointer (tr : list event) (base : list string) (c : call) : Prop :=
  ∃ varsDir statErr,
    In (EvGetVarsDir (Ok varsDir)) tr
    ∧ In (EvStat (filepath_Join [varsDir; "terraform.tfstate"]) statErr) tr
    ∧ c_args c = match statErr with
                 | None => base ++ ["-state"; filepath_Join [varsDir; "terraform.tfstate"]]
                 | Some _ => base
                 end.

(** The arguments of a capturing invocation whose own arguments are
    [base], after the lookup of the state file at [path] answered
    [statErr]. *)
Definition state_args (base : list string) (path : string) (statErr : option error)
    : list string :=
  match statErr with
  | None => base ++ ["-state"; path]
  | Some _ => base
  end.

(** The lookup of [path] that answered [statErr] in the run [tr] was
    followed up: [path] is the state file joined onto the vars directory of
    the run, and the capturing invocation was made, in the terraform
    directory of the run, with [state_args base path statErr]. *)
Definition captures_after_stat (tr : list event) (base : list string)
    (path : string) (statErr : option error) : Prop :=
  ∃ terraformDir varsDir out err,
    In (EvGetTerraformDir (Ok terraformDir)) tr
    ∧ In (EvGetVarsDir (Ok varsDir)) tr
    ∧ path = filepath_Join [varsDir; "terraform.tfstate"]
    ∧ In (EvRun (Call Buffer terraformDir (state_args base path statErr) None true) out err) tr.

(** What a command that captures output owes the state file, read off its
    run [tr]: every lookup of the state file is followed up, and every
    capturing invocation has the arguments of [state_pointer]. *)
Definition passes_state_pointer (tr : list event) (base : list string) : Prop :=
  (∀ path statErr, In (EvStat path statErr) tr → captures_after_stat tr base path statErr)
  ∧ (∀ c out err, In (EvRun c out err) tr → c_sink c = Buffer → state_pointer tr base c).

(** One rendered entry: a newline, then [name=value]. *)
Definition segment (entry : string * value) : string :=
  str1 newline +:+ entry.1 +:+ "=" +:+ formatVars_value entry.2.

(** The values the specification's data model admits in an inputs map. *)
Definition string_or_list (v : value) : Prop :=
  match v with
  | VString _ | VStrings _ => True
  | VOther _ => False
  end.

(** [c] occurs among the bytes of [s]. *)
Fixpoint occurs (c : ascii) (s : string) : Prop :=
  match s with
  | EmptyString => False
  | String c' s' => c' = c ∨ occurs c s'
  end.

(** The last byte of a string, if it has one. *)
Fixpoint last_byte (s : string) : option ascii :=
  match s with
  | EmptyString => None
  | String c EmptyString => Some c
  | String _ s' => last_byte s'
  end.

(** ** Sample runs

    Concrete executors, inputs and invocations on which the statements
    below are exercised. *)
Module Samples.

(** A mapping whose only value is a [[]byte] holding [v] and a newline. *)
Definition other_inputs : gmap string value :=
  {[ "k" := VOther ("v" +:+ str1 newline) ]}.

Definition region_inputs : gmap string value :=
  {[ "region" := VString ("us" +:+ str1 newline +:+ "west") ]}.

(** The runner fails and repeats a credential in its error; debug is off. *)
Definition leaking : Executor unit :=
  Fakes.executor (Fakes.refuse "exit status 1: token=hunter2") ["bbl.tfvars"] None false.

Definition apply_call : call :=
  Call Stdout "/env/terraform"
       ["apply"; "--auto-approve"; "-var"; "token=hunter2";
        "-state"; "../vars/terraform.tfstate"; "-var-file"; "../vars/bbl.tfvars"]
       (Some []) false.

(** The runner fails; debug is on. *)
Definition failing_debug : Executor unit :=
  Fakes.executor (Fakes.refuse "exit status 1") [] None true.

(** The runner fails; debug is off. *)
Definition failing : Executor unit :=
  Fakes.executor (Fakes.refuse "exit status 1") [] None false.

Definition destroy_call : call :=
  Call Stdout "/env/terraform"
       ["destroy"; "-force"; "-state"; "../vars/terraform.tfstate"]
       (Some ["TF_WARN_OUTPUT_ERRORS=1"]) true.

(** Nothing is provisioned: there is no state file and [show] says so. *)
Definition unpaved : Executor unit :=
  Fakes.executor (Fakes.succeed "No state.") [] (Some "no such file") false.

(** Something is provisioned: the state file exists and [show] lists it. *)
Definition paved : Executor unit :=
  Fakes.executor (Fakes.succeed "aws_vpc.vpc: id = vpc-1") [] None false.

(** The state file exists. *)
Definition with_state : Executor unit :=
  Fakes.executor (Fakes.succeed "No state.") [] None false.

Definition show_call : call := Call Buffer "/env/terraform" ["show"] None true.

Definition show_state_call : call :=
  Call Buffer "/env/terraform" ["show"; "-state"; "/env/vars/terraform.tfstate"] None true.

(** [init] succeeds, [show] fails. *)
Definition show_failing : Executor unit :=
  Fakes.executor (Fakes.init_only "exit status 1") [] (Some "no such file") false.

(** The engine prints [bar] and two newlines. *)
Definition bar_twice : Executor unit :=
  Fakes.executor (Fakes.succeed ("bar" +:+ str1 newline +:+ str1 newline))
                 [] (Some "no such file") false.

(** The engine prints [bar] without a newline. *)
Definition bar_plain : Executor unit :=
  Fakes.executor (Fakes.succeed "bar") [] (Some "no such file") false.

Definition output_call : call :=
  Call Buffer "/env/terraform" ["output"; "foo"] None true.

(** Debug is on and every invocation succeeds. *)
Definition verbose : Executor unit := Fakes.executor (Fakes.succeed "ok") [] None true.

(** Debug is off and every invocation succeeds. *)
Definition silent : Executor unit := Fakes.executor (Fakes.succeed "ok") [] None false.

Definition init_call (dbg : bool) : call :=
  Call Stdout "/env/terraform" ["init"] None dbg.

Definition version_call : call := Call Buffer "/tmp" ["version"] None true.

(** The vars directory of the specification's example. *)
Definition three_files : Executor unit :=
  Fakes.executor (Fakes.succeed "") ["a.tfvars"; "b.tfvars"; "notes.txt"] None false.

Definition plan_call : call :=
  Call Stdout "/env/terraform"
       ["plan"; "-state"; "../vars/terraform.tfstate";
        "-var-file"; "../vars/a.tfvars"; "-var-file"; "../vars/b.tfvars"]
       (Some []) false.

(** The engine prints a version with dashes, or with dots. *)
Definition dashed : Executor unit :=
  Fakes.executor (Fakes.succeed ("Terraform v0-11-7" +:+ str1 newline)) [] None false.

(** The engine prints a version of two parts. *)
Definition two_part : Executor unit :=
    Fakes.executor (Fakes.succeed ("Terraform v0.117" +:+ str1 newline)) [] None false.

Definition dotted : Executor unit :=
  Fakes.executor (Fakes.succeed ("Terraform v0.11.7" +:+ str1 newline)) [] None false.

End Samples.

(** ** Setup

    [Setup] writes through the [fileio.FileWriter] part of [fs] and creates
    a directory with [os.MkdirAll]; its exchanges are recorded in a trace
    of their own. *)

(** An [os.FileMode], as its permission bits. *)
Definition FileMode : Type := N.

(** [os.ModePerm], octal 0777. *)
Definition os_ModePerm : FileMode := 511%N.

Inductive setup_event : Type :=
| SGetTerraformDir (r : result string)
| SGetVarsDir (r : result string)
| SWriteFile (path content : string) (mode : FileMode) (err : option error)
| SMkdirAll (path : string) (mode : FileMode) (err : option error).

(** [fileio.FileWriter] *)
Record fileWriter (W : Type) : Type := {
  WriteFile : string → string → FileMode → W → option error * W;
}.
Arguments WriteFile {W} _ _ _ _ _.

(** The operating system, as far as [Setup] calls it directly. *)
Record osCalls (W : Type) : Type := {
  MkdirAll : string → FileMode → W → option error * W;
}.
Arguments MkdirAll {W} _ _ _ _.

Section Setup.

Context {W : Type}.

(** [storage.StateMode], the permission of every file [Setup] writes; the
    constant is declared in package [storage]. *)
Variable StateMode : FileMode.

(** [Setup(template, input)], with [input] as the sequence of entries the
    [range] loop of [formatVars] visits.  The result is the returned
    error, the world afterwards and the exchanges made. *)
Definition Setup (e : Executor W) (writer : fileWriter W) (os : osCalls W)
    (template : string) (input : list (string * value)) (w : W)
    : option error * W * list setup_event :=
  match GetTerraformDir (store e) w with
  | (Err err, w) => (Some err, w, [SGetTerraformDir (Err err)])
  | (Ok terraformDir, w) =>
  let templatePath := filepath_Join [terraformDir; "bbl-template.tf"] in
  match WriteFile writer templatePath template StateMode w with
  | (Some err, w) =>
      (Some (Errorf "Write terraform template: " err), w,
       [SGetTerraformDir (Ok terraformDir);
        SWriteFile templatePath template StateMode (Some err)])
  | (None, w) =>
  match GetVarsDir (store e) w with
  | (Err err, w) =>
      (Some err, w,
       [SGetTerraformDir (Ok terraformDir);
        SWriteFile templatePath template StateMode None;
        SGetVarsDir (Err err)])
  | (Ok varsDir, w) =>
  let dotTerraform := filepath_Join [terraformDir; ".terraform"] in
  match MkdirAll os dotTerraform os_ModePerm w with
  | (Some err, w) =>
      (Some (Errorf "Create .terraform directory: " err), w,
       [SGetTerraformDir (Ok terraformDir);
        SWriteFile templatePath template StateMode None;
        SGetVarsDir (Ok varsDir);
        SMkdirAll dotTerraform os_ModePerm (Some err)])
  | (None, w) =>
  let ignorePath := filepath_Join [terraformDir; ".terraform"; ".gitignore"] in
  let ignoreAll := "*" +:+ str1 newline in
  match WriteFile writer ignorePath ignoreAll StateMode w with
  | (Some err, w) =>
      (Some (Errorf "Write .gitignore for terraform binaries: " err), w,
       [SGetTerraformDir (Ok terraformDir);
        SWriteFile templatePath template StateMode None;
        SGetVarsDir (Ok varsDir);
        SMkdirAll dotTerraform os_ModePerm None;
        SWriteFile ignorePath ignoreAll StateMode (Some err)])
  | (None, w) =>
  let varsPath := filepath_Join [varsDir; "bbl.tfvars"] in
  let vars := formatVars_range input in
  match WriteFile writer varsPath vars StateMode w with
  | (Some err, w) =>
      (Some (Errorf "Write terraform vars: " err), w,
       [SGetTerraformDir (Ok terraformDir);
        SWriteFile templatePath template StateMode None;
        SGetVarsDir (Ok varsDir);
        SMkdirAll dotTerraform os_ModePerm None;
        SWriteFile ignorePath ignoreAll StateMode None;
        SWriteFile varsPath vars StateMode (Some err)])
  | (None, w) =>
      (None, w,
       [SGetTerraformDir (Ok terraformDir);
        SWriteFile templatePath template StateMode None;
        SGetVarsDir (Ok varsDir);
        SMkdirAll dotTerraform os_ModePerm None;
        SWriteFile ignorePath ignoreAll StateMode None;
        SWriteFile varsPath vars StateMode None])
  end end end end end end.

End Setup.

(** Projections of a finished [Setup]. *)
Definition setup_error {W} (x : option error * W * list setup_event) : option error := x.1.1.
Definition setup_trace {W} (x : option error * W * list setup_event) : list setup_event := x.2.

(** A step of [Setup] that reported an error. *)
Definition setup_failed (ev : setup_event) : Prop :=
  match ev with
  | SGetTerraformDir (Err _) | SGetVarsDir (Err _) => True
  | SWriteFile _ _ _ (Some _) | SMkdirAll _ _ (Some _) => True
  | _ => False
  end.

(** ** Auxiliary notions for the statements *)

(** [-var key=value] for every credential, in the order given. *)
Definition var_pairs (credentials : list (string * string)) : list string :=
  concat ((λ kv, ["-var"; kv.1 +:+ "=" +:+ kv.2]) <$> credentials).

(** [-var-file path] for every path, in the order given. *)
Definition var_file_pairs (paths : list string) : list string :=
  concat ((λ path, ["-var-file"; path]) <$> paths).

(** The runner invocations of a trace, in order. *)
Fixpoint invocations (tr : list event) : list call :=
  match tr with
  | [] => []
  | EvRun c _ _ :: rest => c :: invocations rest
  | _ :: rest => invocations rest
  end.

(** A string between two double quotes. *)
Definition quoted (s : string) : string := str1 dquote +:+ s +:+ str1 dquote.

(** How often the byte [c] occurs in [s]. *)
Fixpoint byte_count (c : ascii) (s : string) : nat :=
  match s with
  | EmptyString => 0
  | String c' s' => (if Ascii.eqb c' c then 1 else 0) + byte_count c s'
  end.

(** [sub] occurs in [s]. *)
Definition substring_of (sub s : string) : Prop :=
  ∃ before after, s = before +:+ sub +:+ after.

Definition first_byte (s : string) : option ascii :=
  match s with
  | EmptyString => None
  | String c _ => Some c
  end.

Definition is_digit (c : ascii) : Prop := byte_between 48 57 c = true.

(** The repetition inside [match_here], on its own: after one rune of the
    class, take one more if that leads to a match, otherwise go on with
    the rest of the pattern, [k]. *)
Fixpoint plus_more (c : re_class) (k : list string → option (list string))
    (rs : list string) : option (list string) :=
  let again :=
    match rs with
    | r :: rs' => if class_matches c r then cons r <$> plus_more c k rs' else None
    | [] => None
    end in
  match again with
  | Some m => Some m
  | None => k rs
  end.

(** A repetition from its first rune on. *)
Definition plus_first (c : re_class) (k : list string → option (list string))
    (rs : list string) : option (list string) :=
  match rs with
  | r :: rs' => if class_matches c r then cons r <$> plus_more c k rs' else None
  | [] => None
  end.

(** The class an item tests its runes with. *)
Definition item_class (it : re_item) : re_class :=
  match it with
  | ReOne c | RePlus c => c
  end.

(** [it'] accepts every rune [it] accepts, with the same repetition. *)
Definition item_le (it it' : re_item) : Prop :=
  match it, it' with
  | ReOne c, ReOne c' | RePlus c, RePlus c' =>
      ∀ r, class_matches c r = true → class_matches c' r = true
  | _, _ => False
  end.

(** ** More scripted collaborators *)
Module Scripts.

(** A writer that refuses the paths for which [refused] holds. *)
Definition writer (refused : string → bool) : fileWriter unit := {|
  WriteFile path content mode w :=
    (if refused path then Some "permission denied" else None, w);
|}.

Definition os (err : option error) : osCalls unit := {|
  MkdirAll path mode w := (err, w);
|}.

(** A state store whose vars directory cannot be resolved. *)
Definition no_vars_dir : stateStore unit := {|
  GetTerraformDir w := (Ok "/env/terraform", w);
  GetVarsDir w := (Err "mkdir /env/vars: read-only file system", w);
|}.

(** A state store whose terraform directory cannot be resolved. *)
Definition no_terraform_dir : stateStore unit := {|
  GetTerraformDir w := (Err "mkdir /env/terraform: read-only file system", w);
  GetVarsDir w := (Ok "/env/vars", w);
|}.

Definition executor_without_terraform_dir : Executor unit := {|
  cmd := Fakes.scripted_cmd (Fakes.succeed "ok");
  store := no_terraform_dir;
  files := Fakes.scripted_fs [] None;
  debug := false;
|}.

(** A file system whose directory listing fails. *)
Definition unreadable : fs unit := {|
  ReadDir dir w := (Err "open /env/vars: permission denied", w);
  Stat path w := (None, w);
|}.

Definition executor_without_vars_dir : Executor unit := {|
  cmd := Fakes.scripted_cmd (Fakes.succeed "ok");
  store := no_vars_dir;
  files := Fakes.scripted_fs [] None;
  debug := false;
|}.

(** The state store answers with a relative vars directory. *)
Definition executor_relative_vars : Executor unit := {|
  cmd := Fakes.scripted_cmd (Fakes.succeed "ok");
  store := Fakes.scripted_store "/env/terraform" "vars";
  files := Fakes.scripted_fs [] None;
  debug := false;
|}.

Definition executor_unreadable : Executor unit := {|
  cmd := Fakes.scripted_cmd (Fakes.succeed "ok");
  store := Fakes.scripted_store "/env/terraform" "/env/vars";
  files := unreadable;
  debug := false;
|}.

(** A decoder that answers with one sensitive output. *)
Definition one_output (buffer : string) : result (gmap string (tfOutput string)) :=
  Ok {[ "director_password" :=
          {| Sensitive := true; Type_ := "string"; Value := "hunter2" |} ]}.

Definition plain : Executor unit := Fakes.executor (Fakes.succeed "ok") [] None false.

Definition state_mode : FileMode := 416%N.

Definition accept_all (path : string) : bool := false.

Definition refuse_ignore (path : string) : bool :=
  String.eqb path "/env/terraform/.terraform/.gitignore".

Definition region : list (string * value) := [("region", VString "us-west-1")].

(** A mapping of two entries, which [range] may visit in either order. *)
Definition two_inputs : gmap string value :=
  <[ "az" := VStrings ["a"; "b"] ]> {[ "region" := VString "us" ]}.

End Scripts.

(** * Properties *)

(** ** The library models on documented cases *)

Example filepath_Clean_cases :
  filepath_Clean "" = "."
  ∧ filepath_Clean "a//b/./c/.." = "a/b"
  ∧ filepath_Clean "/../a/" = "/a"
  ∧ filepath_Clean "../../a/.." = "../.."
  ∧ filepath_Clean "a/.." = "."
  ∧ filepath_Clean "/" = "/".
Proof. repeat split; reflexivity. Qed.

Example filepath_Join_cases :
  filepath_Join ["a"; "b"; "c"] = "a/b/c"
  ∧ filepath_Join ["a"; ""; "../c"] = "c"
  ∧ filepath_Join [""; ""] = ""
  ∧ filepath_Join ["/env/vars"; "terraform.tfstate"] = "/env/vars/terraform.tfstate".
Proof. repeat split; reflexivity. Qed.

Example filepath_Rel_cases :
  filepath_Rel "/a" "/a/b/c" = Ok "b/c"
  ∧ filepath_Rel "/a" "/b/c" = Ok "../b/c"
  ∧ filepath_Rel "/a" "/a" = Ok "."
  ∧ filepath_Rel "/a/b/c" "/a/x/y" = Ok "../../x/y"
  ∧ filepath_Rel "/" "/a" = Ok "a"
  ∧ filepath_Rel "/a" "/" = Ok ".."
  ∧ filepath_Rel "/a" "./b/c" = Err "Rel: can't make ./b/c relative to /a"
  ∧ filepath_Rel ".." "." = Err "Rel: can't make . relative to ..".
Proof. repeat split; reflexivity. Qed.

(** The dot of a pattern takes a whole rune: [é] is two bytes. *)
Example regexp_FindString_cases :
  regexp_FindString version_regex "Terraform v0.11.7" = "0.11.7"
  ∧ regexp_FindString version_regex "no version here" = ""
  ∧ regexp_FindString version_regex "1234" = ""
  ∧ regexp_FindString version_regex (String "1" (String "195" (String "169" "2.3")))
    = String "1" (String "195" (String "169" "2.3"))
  ∧ regexp_FindString version_regex ("1" +:+ str1 newline +:+ "2.3 then 10.20.30")
    = "10.20.30".
Proof. repeat split; reflexivity. Qed.

Example strings_cases :
  strings_HasSuffix "bbl.tfvars" ".tfvars" = true
  ∧ strings_HasSuffix "notes.txt" ".tfvars" = false
  ∧ strings_HasSuffix "vars" ".tfvars" = false
  ∧ strings_Join ["a"; "b"; "c"] ", " = "a, b, c"
  ∧ strings_Replace "a.b.c" "." "::" = "a::b::c"
  ∧ strings_Replace "aaa" "aa" "b" = "ba"
  ∧ strings_Contains "seafood" "foo" = true
  ∧ strings_TrimSuffix "bar.go" ".go" = "bar".
Proof. repeat split; reflexivity. Qed.

(** ** Strings *)

Section StringFacts.

Local Arguments String.append !_ _ : simpl nomatch.

Lemma sapp_nil_r (s : string) : s +:+ "" = s.
Proof. induction s as [|c s IH]; simpl; [done | by rewrite IH]. Qed.

Lemma sapp_assoc (a b c : string) : (a +:+ b) +:+ c = a +:+ (b +:+ c).
Proof. induction a as [|x a IH]; simpl; [done | by rewrite IH]. Qed.

Lemma sapp_length (a b : string) :
  String.length (a +:+ b) = String.length a + String.length b.
Proof. induction a as [|x a IH]; simpl; [done | by rewrite IH]. Qed.

Lemma concat_strings_app (l1 l2 : list string) :
  concat_strings (l1 ++ l2) = concat_strings l1 +:+ concat_strings l2.
Proof.
  induction l1 as [|x l1 IH]; simpl; [done |].
  by rewrite IH, sapp_assoc.
Qed.

Lemma occurs_app (c : ascii) (a b : string) :
  occurs c (a +:+ b) ↔ occurs c a ∨ occurs c b.
Proof. induction a as [|x a IH]; simpl; tauto. Qed.

Lemma slice_to_app (a b : string) : slice_to (String.length a) (a +:+ b) = a.
Proof. induction a as [|x a IH]; simpl; [by destruct b | by rewrite IH]. Qed.

Lemma slice_from_app (a b : string) : slice_from (String.length a) (a +:+ b) = b.
Proof. induction a as [|x a IH]; simpl; [by destruct b | done]. Qed.

Lemma slice_to_from (n : nat) (s : string) : slice_to n s +:+ slice_from n s = s.
Proof.
  revert s; induction n as [|n IH]; intros [|c s]; simpl; try done.
  by rewrite IH.
Qed.

(** [HasSuffix] holds exactly of the strings that are something followed
    by the suffix. *)
Lemma HasSuffix_spec (s suffix : string) :
  strings_HasSuffix s suffix = true ↔ ∃ p, s = p +:+ suffix.
Proof.
  unfold strings_HasSuffix. rewrite andb_true_iff, Nat.leb_le, String.eqb_eq. split.
  - intros [Hlen Heq].
    exists (slice_to (String.length s - String.length suffix) s).
    symmetry.
    etrans; [| apply (slice_to_from (String.length s - String.length suffix))].
    by rewrite Heq.
  - intros [p ->]. rewrite sapp_length. split; [lia |].
    replace (String.length p + String.length suffix - String.length suffix)
      with (String.length p) by lia.
    apply slice_from_app.
Qed.

Lemma TrimSuffix_app (p suffix : string) : strings_TrimSuffix (p +:+ suffix) suffix = p.
Proof.
  unfold strings_TrimSuffix.
  assert (strings_HasSuffix (p +:+ suffix) suffix = true) as ->
    by (apply HasSuffix_spec; eauto).
  rewrite sapp_length.
  replace (String.length p + String.length suffix - String.length suffix)
    with (String.length p) by lia.
  apply slice_to_app.
Qed.

Lemma TrimSuffix_other (s suffix : string) :
  (∀ p, s ≠ p +:+ suffix) → strings_TrimSuffix s suffix = s.
Proof.
  intros H. unfold strings_TrimSuffix.
  destruct (strings_HasSuffix s suffix) eqn:E; [| done].
  apply HasSuffix_spec in E as [p ->]. by destruct (H p).
Qed.

End StringFacts.

(** ** The variable formatter *)

Section FormatVarsFacts.

Local Arguments String.append !_ _ : simpl nomatch.

Lemma last_byte_snoc (p : string) (c : ascii) : last_byte (p +:+ str1 c) = Some c.
Proof.
  induction p as [|x p IH]; [done |].
  change (String x p +:+ str1 c) with (String x (p +:+ str1 c)).
  simpl. rewrite IH. by destruct p.
Qed.

Lemma HasPrefix_newline (c : ascii) (s : string) :
  strings_HasPrefix (String c s) (str1 newline) = Ascii.eqb c newline.
Proof.
  unfold strings_HasPrefix, str1. simpl.
  by destruct (Ascii.eqb c newline).
Qed.

Lemma replace_scan_newline (s : string) :
  replace_scan (str1 newline) (String backslash "n") 0 s = spec_escape_newlines s.
Proof.
  induction s as [|c s IH]; [done |].
  unfold replace_scan; fold replace_scan. rewrite HasPrefix_newline.
  cbn [spec_escape_newlines].
  destruct (Ascii.eqb c newline); simpl; by rewrite IH.
Qed.

Lemma Contains_newline (s : string) :
  strings_Contains s (str1 newline) = true ↔ occurs newline s.
Proof.
  induction s as [|c s IH]; [by simpl |].
  unfold strings_Contains; fold strings_Contains.
  rewrite HasPrefix_newline, orb_true_iff, IH, Ascii.eqb_eq. by simpl.
Qed.

Lemma escape_id (s : string) : ¬ occurs newline s → spec_escape_newlines s = s.
Proof.
  induction s as [|c s IH]; [done |]. simpl. intros H.
  destruct (Ascii.eqb_spec c newline) as [-> | _]; [tauto |].
  rewrite IH; tauto.
Qed.

Lemma escape_app (a b : string) :
  spec_escape_newlines (a +:+ b) = spec_escape_newlines a +:+ spec_escape_newlines b.
Proof.
  induction a as [|c a IH]; [done |]. simpl.
  destruct (Ascii.eqb c newline); simpl; by rewrite IH.
Qed.

Lemma escape_no_newline (s : string) : ¬ occurs newline (spec_escape_newlines s).
Proof.
  induction s as [|c s IH]; [by intros [] |]. simpl.
  destruct (Ascii.eqb_spec c newline) as [-> | Hc]; simpl; [| tauto].
  intros [H | [H | H]]; [discriminate H | discriminate H | tauto].
Qed.

(** The branch on [strings.Contains] changes nothing: with or without a
    newline, a scalar is its escaped text between two double quotes. *)
Lemma formatVars_value_string (s : string) :
  formatVars_value (VString s)
  = str1 dquote +:+ spec_escape_newlines s +:+ str1 dquote.
Proof.
  unfold formatVars_value. cbv zeta.
  destruct (strings_Contains _ _) eqn:E.
  - unfold strings_Replace, str1 at 3 4.
    change (String.eqb (String newline "") (String backslash "n")) with false.
    cbv iota. fold (str1 newline).
    by rewrite replace_scan_newline, !escape_app.
  - assert (¬ occurs newline s) as Hs.
    { intros Hs. apply not_true_iff_false in E. apply E, Contains_newline.
      rewrite !occurs_app. tauto. }
    by rewrite escape_id.
Qed.

Lemma formatVars_value_last (v : value) :
  string_or_list v → ∃ body c, formatVars_value v = body +:+ str1 c ∧ c ≠ newline.
Proof.
  destruct v as [s | l | r]; [intros _ | intros _ | intros []].
  - exists (str1 dquote +:+ spec_escape_newlines s), dquote.
    by rewrite formatVars_value_string, sapp_assoc.
  - unfold formatVars_value.
    exists ("[" +:+ str1 dquote
                +:+ strings_Join l (String dquote (String "," (str1 dquote)))
                +:+ str1 dquote), "]"%char.
    split; [| done]. by rewrite !sapp_assoc.
Qed.

Lemma formatVars_range_from (entries : list (string * value)) (acc : string) :
  fold_left formatVars_step entries acc = acc +:+ concat_strings (segment <$> entries).
Proof.
  revert acc; induction entries as [|kv entries IH]; intros acc; simpl.
  - by rewrite sapp_nil_r.
  - rewrite IH. unfold formatVars_step, segment. by rewrite !sapp_assoc.
Qed.

Lemma formatVars_range_segments (entries : list (string * value)) :
  formatVars_range entries = concat_strings (segment <$> entries).
Proof. unfold formatVars_range. by rewrite formatVars_range_from. Qed.

End FormatVarsFacts.

(** C5: in every result of the variable formatter, every entry whose value
    is a scalar string is rendered as [name=], a double quote, the value
    with each newline replaced by the two bytes backslash and [n], and a
    double quote; the rendered value holds no raw newline. *)
Theorem formatVars_scalar_quoted_escaped
    (inputs : gmap string value) (out name s : string) :
  formatVars inputs out →
  inputs !! name = Some (VString s) →
  formatVars_value (VString s) = str1 dquote +:+ spec_escape_newlines s +:+ str1 dquote
  ∧ ¬ occurs newline (formatVars_value (VString s))
  ∧ ∃ before after,
      out = before +:+ (str1 newline +:+ name +:+ "=" +:+ formatVars_value (VString s))
                   +:+ after.
Proof.
  intros (entries & Horder & ->) Hlookup.
  split; [apply formatVars_value_string |]. split.
  - rewrite formatVars_value_string, !occurs_app. simpl.
    intros [[H | []] | [H | [H | []]]]; try discriminate H.
    by apply escape_no_newline in H.
  - assert ((name, VString s) ∈ entries) as Hin.
    { rewrite Horder. by apply elem_of_map_to_list. }
    apply list_elem_of_split in Hin as (l1 & l2 & ->).
    exists (concat_strings (segment <$> l1)), (concat_strings (segment <$> l2)).
    rewrite formatVars_range_segments, fmap_app, concat_strings_app.
    by rewrite fmap_cons.
Qed.

Lemma formatVars_scalar_quoted_escaped_witness :
  formatVars Samples.region_inputs (formatVars_range (map_to_list Samples.region_inputs))
  ∧ Samples.region_inputs !! "region" = Some (VString ("us" +:+ str1 newline +:+ "west"))
  ∧ formatVars_value (VString ("us" +:+ str1 newline +:+ "west"))
    = str1 dquote +:+ spec_escape_newlines ("us" +:+ str1 newline +:+ "west") +:+ str1 dquote
  ∧ ¬ occurs newline (formatVars_value (VString ("us" +:+ str1 newline +:+ "west")))
  ∧ ∃ before after,
      formatVars_range (map_to_list Samples.region_inputs)
      = before +:+ (str1 newline +:+ "region" +:+ "="
                    +:+ formatVars_value (VString ("us" +:+ str1 newline +:+ "west")))
               +:+ after.
Proof.
  assert (formatVars Samples.region_inputs
            (formatVars_range (map_to_list Samples.region_inputs))) as Hout
    by (exists (map_to_list Samples.region_inputs);
        split; [unfold range_order |]; reflexivity).
  assert (Samples.region_inputs !! "region"
          = Some (VString ("us" +:+ str1 newline +:+ "west"))) as Hlookup
    by apply lookup_singleton_eq.
  split; [exact Hout |]. split; [exact Hlookup |].
  exact (formatVars_scalar_quoted_escaped _ _ _ _ Hout Hlookup).
Defined.

(** C10: every result of the variable formatter on a mapping with [n]
    entries is the concatenation of [n] segments, one per entry, each a
    newline followed by [name=value]; so it is empty for the empty mapping
    and begins with a newline otherwise.  On the mappings the formatter is
    specified for, whose values are strings or lists of strings, it never
    ends with a newline. *)
Theorem formatVars_segments (inputs : gmap string value) (out : string) :
  formatVars inputs out →
  ∃ entries,
    range_order inputs entries
    ∧ length entries = size inputs
    ∧ out = concat_strings (segment <$> entries)
    ∧ (inputs = ∅ → out = "")
    ∧ (inputs ≠ ∅ → ∃ rest, out = String newline rest)
    ∧ (map_Forall (λ _, string_or_list) inputs → ∀ p, out ≠ p +:+ str1 newline).
Proof.
  intros (entries & Horder & ->). exists entries.
  rewrite formatVars_range_segments.
  split; [done |]. split; [by rewrite Horder, length_map_to_list |].
  split; [done |]. unfold range_order in Horder. split; [| split].
  - intros ->. rewrite map_to_list_empty in Horder.
    by apply Permutation_nil_r in Horder as ->.
  - intros Hne. destruct entries as [|kv entries].
    + destruct Hne. apply map_to_list_empty_iff. symmetry in Horder.
      by apply Permutation_nil_r in Horder.
    + eexists. reflexivity.
  - intros Hvalues p Hout.
    destruct entries as [|kv entries _] using rev_ind.
    + by destruct p.
    + assert (string_or_list kv.2) as Hkv.
      { apply (Hvalues kv.1), elem_of_map_to_list.
        rewrite <- Horder, elem_of_app, list_elem_of_singleton.
        right. by destruct kv. }
      apply formatVars_value_last in Hkv as (body & c & Hbody & Hc).
      rewrite fmap_app, concat_strings_app in Hout.
      cbn [fmap list_fmap concat_strings] in Hout.
      replace (segment kv)
        with ((str1 newline +:+ kv.1 +:+ "=" +:+ body) +:+ str1 c) in Hout
        by (unfold segment; by rewrite Hbody, !sapp_assoc).
      rewrite sapp_nil_r, <- sapp_assoc in Hout.
      apply (f_equal last_byte) in Hout. rewrite !last_byte_snoc in Hout.
      congruence.
Qed.

Lemma formatVars_segments_witness :
  formatVars Samples.region_inputs (formatVars_range (map_to_list Samples.region_inputs))
  ∧ Samples.region_inputs ≠ ∅
  ∧ map_Forall (λ _, string_or_list) Samples.region_inputs
  ∧ (∃ rest, formatVars_range (map_to_list Samples.region_inputs) = String newline rest)
  ∧ (∀ p, formatVars_range (map_to_list Samples.region_inputs) ≠ p +:+ str1 newline).
Proof.
  assert (formatVars Samples.region_inputs
            (formatVars_range (map_to_list Samples.region_inputs))) as Hout
    by (exists (map_to_list Samples.region_inputs);
        split; [unfold range_order |]; reflexivity).
  assert (Samples.region_inputs ≠ ∅) as Hne by apply insert_non_empty.
  assert (map_Forall (λ _, string_or_list) Samples.region_inputs) as Hvalues
    by (apply map_Forall_singleton; exact I).
  split; [exact Hout |]. split; [exact Hne |]. split; [exact Hvalues |].
  destruct (formatVars_segments _ _ Hout) as (entries & _ & _ & _ & _ & Hfirst & Hlast).
  split; [exact (Hfirst Hne) | exact (Hlast Hvalues)].
Defined.

(** The restriction to strings and lists of strings is needed for the last
    part: a value of another Go type, such as a [[]byte] holding [v] and a
    newline, is printed as it is, and the text for this one-entry mapping
    ends with a newline. *)
Lemma formatVars_other_value_ends_with_newline :
  Samples.other_inputs ≠ ∅
  ∧ ¬ (∀ out, formatVars Samples.other_inputs out → ∀ p, out ≠ p +:+ str1 newline).
Proof.
  split.
  - unfold Samples.other_inputs. apply insert_non_empty.
  - intros H.
    refine (H (formatVars_range [("k", VOther ("v" +:+ str1 newline))]) _
              (str1 newline +:+ "k=v") _); [| reflexivity].
    exists [("k", VOther ("v" +:+ str1 newline))]. split; [| done].
    unfold range_order, Samples.other_inputs. by rewrite map_to_list_singleton.
Qed.

(** ** The commands *)

Arguments filepath_Join : simpl never.
Arguments filepath_Rel : simpl never.
Arguments filepath_Clean : simpl never.
Arguments strings_TrimSuffix : simpl never.
Arguments strings_HasSuffix : simpl never.
Arguments regexp_FindString : simpl never.
Arguments varFileArgs : simpl never.
Arguments credentialArgs : simpl never.
Arguments String.eqb : simpl never.

(** Opens a command down to the calls of its collaborators. *)
Ltac open_command :=
  unfold outcome, trace, Apply, Destroy, Init, Version, Output, Outputs, IsPaved,
    runTFCommand, runTFCommandWithEnvs, bind, mapErr, lift, ret, fail,
    getTerraformDir, getVarsDir, readDir, stat, run, runWithEnv, answer;
  cbn [fst snd].

(** Splits on the answer of the next collaborator. *)
Ltac next_answer :=
  match goal with
  | |- context [GetTerraformDir ?s ?w] =>
      destruct (GetTerraformDir s w) as [[?terraformDir | ?err] ?w] eqn:?
  | |- context [GetVarsDir ?s ?w] =>
      destruct (GetVarsDir s w) as [[?varsDir | ?err] ?w] eqn:?
  | |- context [ReadDir ?f ?d ?w] =>
      destruct (ReadDir f d w) as [[?varsFiles | ?err] ?w] eqn:?
  | |- context [Stat ?f ?p ?w] =>
      destruct (Stat f p w) as [[?err |] ?w] eqn:?
  | |- context [Run ?c ?s ?d ?a ?b ?w] =>
      destruct (Run c s d a b w) as [[?out [?err |]] ?w] eqn:?
  | |- context [RunWithEnv ?c ?s ?d ?a ?v ?b ?w] =>
      destruct (RunWithEnv c s d a v b w) as [[?out [?err |]] ?w] eqn:?
  | |- context [filepath_Rel ?a ?b] =>
      destruct (filepath_Rel a b) as [?rel | ?err] eqn:?
  | |- context [varFileArgs ?t ?v ?f ?a] =>
      destruct (varFileArgs t v f a) as [?args | ?err] eqn:?
  end; cbn [fst snd app].

Ltac all_answers := open_command; repeat next_answer.

(** Uses the answer [H] of a collaborator. *)
Ltac answer_with H := rewrite H; cbn [fst snd app].

(** C2: when the runner invocation made by [Apply] or [Destroy] fails, the
    command returns the fixed redacted message if the executor's debug flag
    is off, whatever the runner's error says, and the runner's error itself
    if the flag is on. *)
Theorem apply_destroy_redaction {W : Type} (e : Executor W)
    (credentials : list (string * string)) (command : M W unit) (w : W)
    (c : call) (out : string) (err : error) :
  command = Apply e credentials ∨ command = Destroy e credentials →
  In (EvRun c out (Some err)) (trace (command w)) →
  outcome (command w) = Err (if debug e then err else redactedError).
Proof.
  intros [-> | ->]; revert c out err; all_answers; cbn; intros c out' err'.
  all: by intuition simplify_eq.
Qed.

Lemma apply_destroy_redaction_witness :
  (In (EvRun Samples.apply_call "" (Some "exit status 1: token=hunter2"))
      (trace (Apply Samples.leaking [("token", "hunter2")] tt))
   ∧ outcome (Apply Samples.leaking [("token", "hunter2")] tt) = Err redactedError)
  ∧ (In (EvRun Samples.destroy_call "" (Some "exit status 1"))
        (trace (Destroy Samples.failing_debug [] tt))
     ∧ outcome (Destroy Samples.failing_debug [] tt) = Err "exit status 1").
Proof.
  split.
  - assert (In (EvRun Samples.apply_call "" (Some "exit status 1: token=hunter2"))
               (trace (Apply Samples.leaking [("token", "hunter2")] tt))) as Hrun
      by (vm_compute; tauto).
    split; [exact Hrun |].
    exact (apply_destroy_redaction _ _ _ _ _ _ _ (or_introl eq_refl) Hrun).
  - assert (In (EvRun Samples.destroy_call "" (Some "exit status 1"))
               (trace (Destroy Samples.failing_debug [] tt))) as Hrun
      by (vm_compute; tauto).
    split; [exact Hrun |].
    exact (apply_destroy_redaction _ _ _ _ _ _ _ (or_intror eq_refl) Hrun).
Defined.

(** C7: when the [show] invocation of [IsPaved] succeeds, [IsPaved] answers
    [false] if the captured output is exactly [No state.] and [true] for
    every other captured output. *)
Theorem IsPaved_reads_show_output {W : Type} (e : Executor W) (w : W)
    (c : call) (out : string) :
  In (EvRun c out None) (trace (IsPaved e w)) →
  hd_error (c_args c) = Some "show" →
  (out = "No state." → outcome (IsPaved e w) = Ok false)
  ∧ (out ≠ "No state." → outcome (IsPaved e w) = Ok true).
Proof.
  revert c out; all_answers;
    try destruct (String.eqb_spec out0 "No state.");
    cbn; intros c out'; intuition simplify_eq; done.
Qed.

Lemma IsPaved_reads_show_output_witness :
  (In (EvRun Samples.show_call "No state." None) (trace (IsPaved Samples.unpaved tt))
   ∧ hd_error (c_args Samples.show_call) = Some "show"
   ∧ outcome (IsPaved Samples.unpaved tt) = Ok false)
  ∧ (In (EvRun Samples.show_state_call "aws_vpc.vpc: id = vpc-1" None)
        (trace (IsPaved Samples.paved tt))
     ∧ hd_error (c_args Samples.show_state_call) = Some "show"
     ∧ outcome (IsPaved Samples.paved tt) = Ok true).
Proof.
  split.
  - assert (In (EvRun Samples.show_call "No state." None)
               (trace (IsPaved Samples.unpaved tt))) as Hrun
      by (vm_compute; tauto).
    split; [exact Hrun |]. split; [reflexivity |].
    exact (proj1 (IsPaved_reads_show_output _ _ _ _ Hrun eq_refl) eq_refl).
  - assert (In (EvRun Samples.show_state_call "aws_vpc.vpc: id = vpc-1" None)
               (trace (IsPaved Samples.paved tt))) as Hrun
      by (vm_compute; tauto).
    split; [exact Hrun |]. split; [reflexivity |].
    refine (proj2 (IsPaved_reads_show_output _ _ _ _ Hrun eq_refl) _).
    discriminate.
Defined.

(** C8: when the invocations of [Output] succeed, it returns the captured
    text without its last byte if that byte is a newline, and the captured
    text as it is otherwise; only one newline is removed. *)
Theorem Output_trims_one_newline {W : Type} (e : Executor W) (outputName : string)
    (w : W) (c : call) (out : string) :
  In (EvRun c out None) (trace (Output e outputName w)) →
  hd_error (c_args c) = Some "output" →
  outcome (Output e outputName w) = Ok (strings_TrimSuffix out (str1 newline))
  ∧ (∀ text, out = text +:+ str1 newline → outcome (Output e outputName w) = Ok text)
  ∧ ((∀ text, out ≠ text +:+ str1 newline) → outcome (Output e outputName w) = Ok out).
Proof.
  intros Hrun Hshow.
  assert (outcome (Output e outputName w) = Ok (strings_TrimSuffix out (str1 newline)))
    as Hout.
  { revert c out Hrun Hshow; all_answers; cbn; intros c out'; intuition simplify_eq; done. }
  split; [exact Hout |]. split.
  - intros text ->. by rewrite Hout, TrimSuffix_app.
  - intros Hno. by rewrite Hout, TrimSuffix_other.
Qed.

Lemma Output_trims_one_newline_witness :
  (In (EvRun Samples.output_call ("bar" +:+ str1 newline +:+ str1 newline) None)
      (trace (Output Samples.bar_twice "foo" tt))
   ∧ hd_error (c_args Samples.output_call) = Some "output"
   ∧ outcome (Output Samples.bar_twice "foo" tt) = Ok ("bar" +:+ str1 newline))
  ∧ (In (EvRun Samples.output_call "bar" None) (trace (Output Samples.bar_plain "foo" tt))
     ∧ hd_error (c_args Samples.output_call) = Some "output"
     ∧ outcome (Output Samples.bar_plain "foo" tt) = Ok "bar").
Proof.
  split.
  - assert (In (EvRun Samples.output_call ("bar" +:+ str1 newline +:+ str1 newline) None)
               (trace (Output Samples.bar_twice "foo" tt))) as Hrun
      by (vm_compute; tauto).
    split; [exact Hrun |]. split; [reflexivity |].
    exact (proj1 (proj2 (Output_trims_one_newline _ _ _ _ _ Hrun eq_refl))
                 ("bar" +:+ str1 newline) eq_refl).
  - assert (In (EvRun Samples.output_call "bar" None)
               (trace (Output Samples.bar_plain "foo" tt))) as Hrun
      by (vm_compute; tauto).
    split; [exact Hrun |]. split; [reflexivity |].
    exact (proj1 (Output_trims_one_newline _ _ _ _ _ Hrun eq_refl)).
Defined.

(** C9: whatever the executor's debug flag, [Outputs] and [IsPaved] invoke
    [init] with the debug argument [false], [Output] invokes it with the
    executor's flag, and the capturing invocation of [Output], [Outputs],
    [IsPaved] and [Version] passes [true].  Every invocation of these
    commands is of one of these kinds; [init] is invoked as soon as the
    state store has answered what the command asks of it first, the
    capturing invocation as soon as [init] has succeeded as well, and that
    of [Version] always. *)
Theorem debug_arguments {W Any : Type}
    (json_Unmarshal : string → result (gmap string (tfOutput Any)))
    (e : Executor W) (outputName : string) (w : W) :
  (∀ c out err,
     (In (EvRun c out err) (trace (Outputs json_Unmarshal e w))
      ∨ In (EvRun c out err) (trace (IsPaved e w)) →
      (c_args c = ["init"] ∧ c_sink c = Stdout ∧ c_debug c = false)
      ∨ (c_args c ≠ ["init"] ∧ c_sink c = Buffer ∧ c_debug c = true))
     ∧ (In (EvRun c out err) (trace (Output e outputName w)) →
        (c_args c = ["init"] ∧ c_sink c = Stdout ∧ c_debug c = debug e)
        ∨ (c_args c ≠ ["init"] ∧ c_sink c = Buffer ∧ c_debug c = true))
     ∧ (In (EvRun c out err) (trace (Version e w)) →
        c_args c = ["version"] ∧ c_sink c = Buffer ∧ c_debug c = true))
  ∧ (∀ terraformDir varsDir w1 w2,
       GetTerraformDir (store e) w = (Ok terraformDir, w1) →
       GetVarsDir (store e) w1 = (Ok varsDir, w2) →
       (∃ out err,
          In (EvRun (Call Stdout terraformDir ["init"] None false) out err)
             (trace (Outputs json_Unmarshal e w)))
       ∧ (∃ out err,
            In (EvRun (Call Stdout terraformDir ["init"] None (debug e)) out err)
               (trace (Output e outputName w)))
       ∧ (∀ initOut w3,
            Run (cmd e) Stdout terraformDir ["init"] false w2 = (initOut, None, w3) →
            ∃ args out err,
              args ≠ ["init"]
              ∧ In (EvRun (Call Buffer terraformDir args None true) out err)
                   (trace (Outputs json_Unmarshal e w)))
       ∧ (∀ initOut w3,
            Run (cmd e) Stdout terraformDir ["init"] (debug e) w2 = (initOut, None, w3) →
            ∃ args out err,
              args ≠ ["init"]
              ∧ In (EvRun (Call Buffer terraformDir args None true) out err)
                   (trace (Output e outputName w))))
  ∧ (∀ terraformDir w1,
       GetTerraformDir (store e) w = (Ok terraformDir, w1) →
       (∃ out err,
          In (EvRun (Call Stdout terraformDir ["init"] None false) out err)
             (trace (IsPaved e w)))
       ∧ (∀ varsDir initOut w2 w3,
            Run (cmd e) Stdout terraformDir ["init"] false w1 = (initOut, None, w2) →
            GetVarsDir (store e) w2 = (Ok varsDir, w3) →
            ∃ args out err,
              args ≠ ["init"]
              ∧ In (EvRun (Call Buffer terraformDir args None true) out err)
                   (trace (IsPaved e w))))
  ∧ (∃ out err,
       In (EvRun (Call Buffer "/tmp" ["version"] None true) out err) (trace (Version e w))).
Proof.
  split; [| split; [| split]].
  - intros c out err. split; [| split].
    + intros [H | H]; revert c out err H; all_answers;
        try destruct (json_Unmarshal _); try destruct (String.eqb _ _);
        cbn; intros c out' err'; intuition simplify_eq; cbn; auto;
        right; (split; [| done]); by destruct err0.
    + revert c out err; all_answers;
        cbn; intros c out' err'; intuition simplify_eq; cbn; auto;
        right; (split; [| done]); by destruct err0.
    + revert c out err; all_answers; try destruct (String.eqb _ _);
        cbn; intros c out' err'; intuition simplify_eq; cbn; auto.
  - intros terraformDir varsDir w1 w2 Hdir Hvars. split; [| split; [| split]].
    + open_command. answer_with Hdir; answer_with Hvars; repeat next_answer;
        try destruct (json_Unmarshal _); cbn; eauto 10.
    + open_command. answer_with Hdir; answer_with Hvars; repeat next_answer;
        cbn; eauto 10.
    + intros initOut w3 Hinit. open_command.
      answer_with Hdir; answer_with Hvars; answer_with Hinit; repeat next_answer;
        try destruct (json_Unmarshal _); cbn;
        eexists _, _, _; (split; [| eauto 10]); discriminate.
    + intros initOut w3 Hinit. open_command.
      answer_with Hdir; answer_with Hvars; answer_with Hinit; repeat next_answer;
        cbn; eexists _, _, _; (split; [| eauto 10]); discriminate.
  - intros terraformDir w1 Hdir. split.
    + open_command. answer_with Hdir; repeat next_answer;
        try destruct (String.eqb _ _); cbn; eauto 10.
    + intros varsDir initOut w2 w3 Hinit Hvars. open_command.
      answer_with Hdir; answer_with Hinit; answer_with Hvars; repeat next_answer;
        try destruct (String.eqb _ _); cbn;
        eexists _, _, _; (split; [| eauto 10]); discriminate.
  - all_answers; try destruct (String.eqb _ _); cbn; eauto 10.
Qed.

Lemma debug_arguments_witness :
  ((In (EvRun (Samples.init_call false) "ok" None) (trace (IsPaved Samples.verbose tt))
    ∧ ((c_args (Samples.init_call false) = ["init"]
        ∧ c_sink (Samples.init_call false) = Stdout
        ∧ c_debug (Samples.init_call false) = false)
       ∨ (c_args (Samples.init_call false) ≠ ["init"]
          ∧ c_sink (Samples.init_call false) = Buffer
          ∧ c_debug (Samples.init_call false) = true)))
   ∧ (In (EvRun (Samples.init_call true) "ok" None)
         (trace (Output Samples.verbose "foo" tt))
      ∧ ((c_args (Samples.init_call true) = ["init"]
          ∧ c_sink (Samples.init_call true) = Stdout
          ∧ c_debug (Samples.init_call true) = debug Samples.verbose)
         ∨ (c_args (Samples.init_call true) ≠ ["init"]
            ∧ c_sink (Samples.init_call true) = Buffer
            ∧ c_debug (Samples.init_call true) = true)))
   ∧ (In (EvRun Samples.version_call "ok" None) (trace (Version Samples.silent tt))
      ∧ c_args Samples.version_call = ["version"]
      ∧ c_sink Samples.version_call = Buffer
      ∧ c_debug Samples.version_call = true))
  ∧ ((∃ out err,
        In (EvRun (Samples.init_call false) out err)
           (trace (Outputs Fakes.no_json Samples.verbose tt)))
     ∧ (∃ out err,
          In (EvRun (Samples.init_call true) out err)
             (trace (Output Samples.verbose "foo" tt)))
     ∧ (∃ args out err,
          args ≠ ["init"]
          ∧ In (EvRun (Call Buffer "/env/terraform" args None true) out err)
               (trace (Outputs Fakes.no_json Samples.silent tt)))
     ∧ (∃ args out err,
          args ≠ ["init"]
          ∧ In (EvRun (Call Buffer "/env/terraform" args None true) out err)
               (trace (Output Samples.silent "foo" tt))))
  ∧ ((∃ out err,
        In (EvRun (Samples.init_call false) out err) (trace (IsPaved Samples.verbose tt)))
     ∧ (∃ args out err,
          args ≠ ["init"]
          ∧ In (EvRun (Call Buffer "/env/terraform" args None true) out err)
               (trace (IsPaved Samples.silent tt))))
  ∧ (∃ out err, In (EvRun Samples.version_call out err) (trace (Version Samples.verbose tt))).
Proof.
  split; [| split; [| split]].
  - split; [| split].
    + assert (In (EvRun (Samples.init_call false) "ok" None)
                 (trace (IsPaved Samples.verbose tt))) as Hrun
        by (vm_compute; tauto).
      split; [exact Hrun |].
      exact (proj1 (proj1 (debug_arguments Fakes.no_json _ "foo" _) _ _ _)
               (or_intror Hrun)).
    + assert (In (EvRun (Samples.init_call true) "ok" None)
                 (trace (Output Samples.verbose "foo" tt))) as Hrun
        by (vm_compute; tauto).
      split; [exact Hrun |].
      exact (proj1 (proj2 (proj1 (debug_arguments Fakes.no_json _ "foo" _) _ _ _)) Hrun).
    + assert (In (EvRun Samples.version_call "ok" None)
                 (trace (Version Samples.silent tt))) as Hrun
        by (vm_compute; tauto).
      split; [exact Hrun |].
      exact (proj2 (proj2 (proj1 (debug_arguments Fakes.no_json _ "foo" _) _ _ _)) Hrun).
  - destruct (proj1 (proj2 (debug_arguments Fakes.no_json Samples.verbose "foo" tt))
                "/env/terraform" "/env/vars" tt tt eq_refl eq_refl)
      as (Houtputs & Houtput & _).
    destruct (proj1 (proj2 (debug_arguments Fakes.no_json Samples.silent "foo" tt))
                "/env/terraform" "/env/vars" tt tt eq_refl eq_refl)
      as (_ & _ & Hcaptures & Hcapture).
    split; [exact Houtputs |]. split; [exact Houtput |].
    split; [exact (Hcaptures "ok" tt eq_refl) | exact (Hcapture "ok" tt eq_refl)].
  - split.
    + exact (proj1 (proj1 (proj2 (proj2 (debug_arguments Fakes.no_json Samples.verbose
                                           "foo" tt)))
                      "/env/terraform" tt eq_refl)).
    + exact (proj2 (proj1 (proj2 (proj2 (debug_arguments Fakes.no_json Samples.silent
                                           "foo" tt)))
                      "/env/terraform" tt eq_refl)
               "/env/vars" "ok" tt tt eq_refl eq_refl).
  - exact (proj2 (proj2 (proj2 (debug_arguments Fakes.no_json Samples.verbose "foo" tt)))).
Defined.

(** C1, amended: in every run of [Output], [Outputs] and [IsPaved], once
    the state store has answered and [init] has succeeded, the state file
    [terraform.tfstate] is looked up in the vars directory and the
    capturing invocation is made; its arguments are the command's own and
    nothing else when the lookup fails, and when the lookup succeeds they
    are followed by [-state] and the state file's path as joined onto the
    vars directory (it is not made relative to the terraform directory).
    No capturing invocation has other arguments. *)
Theorem state_pointer_arguments {W Any : Type}
    (json_Unmarshal : string → result (gmap string (tfOutput Any)))
    (e : Executor W) (outputName : string) (w : W) :
  (passes_state_pointer (trace (Output e outputName w)) ["output"; outputName]
   ∧ passes_state_pointer (trace (Outputs json_Unmarshal e w)) ["output"; "--json"]
   ∧ passes_state_pointer (trace (IsPaved e w)) ["show"])
  ∧ (∀ terraformDir varsDir initOut statErr w1 w2 w3 w4,
       GetTerraformDir (store e) w = (Ok terraformDir, w1) →
       GetVarsDir (store e) w1 = (Ok varsDir, w2) →
       Stat (files e) (filepath_Join [varsDir; "terraform.tfstate"]) w3 = (statErr, w4) →
       (Run (cmd e) Stdout terraformDir ["init"] (debug e) w2 = (initOut, None, w3) →
        In (EvStat (filepath_Join [varsDir; "terraform.tfstate"]) statErr)
           (trace (Output e outputName w)))
       ∧ (Run (cmd e) Stdout terraformDir ["init"] false w2 = (initOut, None, w3) →
          In (EvStat (filepath_Join [varsDir; "terraform.tfstate"]) statErr)
             (trace (Outputs json_Unmarshal e w))))
  ∧ (∀ terraformDir varsDir initOut statErr w1 w2 w3 w4,
       GetTerraformDir (store e) w = (Ok terraformDir, w1) →
       Run (cmd e) Stdout terraformDir ["init"] false w1 = (initOut, None, w2) →
       GetVarsDir (store e) w2 = (Ok varsDir, w3) →
       Stat (files e) (filepath_Join [varsDir; "terraform.tfstate"]) w3 = (statErr, w4) →
       In (EvStat (filepath_Join [varsDir; "terraform.tfstate"]) statErr)
          (trace (IsPaved e w))).
Proof.
  split; [| split].
  - unfold passes_state_pointer, captures_after_stat, state_pointer, state_args.
    split; [split | split; [split | split]].
    all: all_answers; try destruct (json_Unmarshal _); try destruct (String.eqb _ _);
      cbn; intros; intuition simplify_eq.
    all: try (eexists _, _, _, _; cbn; repeat split; eauto 10; fail).
    all: eexists _, _; cbn; split; [| split]; eauto 10.
  - intros terraformDir varsDir initOut statErr w1 w2 w3 w4 Hdir Hvars Hstat.
    split; intros Hinit; open_command;
      answer_with Hdir; answer_with Hvars; answer_with Hinit; answer_with Hstat;
      repeat next_answer; try destruct (json_Unmarshal _);
      cbn; destruct statErr; cbn; eauto 10.
  - intros terraformDir varsDir initOut statErr w1 w2 w3 w4 Hdir Hinit Hvars Hstat.
    open_command.
    answer_with Hdir; answer_with Hinit; answer_with Hvars; answer_with Hstat;
      repeat next_answer; try destruct (String.eqb _ _);
      cbn; destruct statErr; cbn; eauto 10.
Qed.

Lemma state_pointer_arguments_witness :
  (captures_after_stat (trace (Output Samples.with_state "foo" tt))
     ["output"; "foo"] "/env/vars/terraform.tfstate" None
   ∧ captures_after_stat (trace (Output Samples.bar_plain "foo" tt))
       ["output"; "foo"] "/env/vars/terraform.tfstate" (Some "no such file"))
  ∧ (captures_after_stat (trace (Outputs Fakes.no_json Samples.with_state tt))
       ["output"; "--json"] "/env/vars/terraform.tfstate" None
     ∧ captures_after_stat (trace (Outputs Fakes.no_json Samples.unpaved tt))
         ["output"; "--json"] "/env/vars/terraform.tfstate" (Some "no such file"))
  ∧ (captures_after_stat (trace (IsPaved Samples.with_state tt))
       ["show"] "/env/vars/terraform.tfstate" None
     ∧ captures_after_stat (trace (IsPaved Samples.unpaved tt))
         ["show"] "/env/vars/terraform.tfstate" (Some "no such file")).
Proof.
  split; [| split]; split.
  - destruct (state_pointer_arguments Fakes.no_json Samples.with_state "foo" tt)
      as [[[Hcaptures _] _] [Hstat _]].
    apply Hcaptures.
    exact (proj1 (Hstat "/env/terraform" "/env/vars" "No state." None tt tt tt tt
                    eq_refl eq_refl eq_refl) eq_refl).
  - destruct (state_pointer_arguments Fakes.no_json Samples.bar_plain "foo" tt)
      as [[[Hcaptures _] _] [Hstat _]].
    apply Hcaptures.
    exact (proj1 (Hstat "/env/terraform" "/env/vars" "bar" (Some "no such file") tt tt tt tt
                    eq_refl eq_refl eq_refl) eq_refl).
  - destruct (state_pointer_arguments Fakes.no_json Samples.with_state "foo" tt)
      as [[_ [[Hcaptures _] _]] [Hstat _]].
    apply Hcaptures.
    exact (proj2 (Hstat "/env/terraform" "/env/vars" "No state." None tt tt tt tt
                    eq_refl eq_refl eq_refl) eq_refl).
  - destruct (state_pointer_arguments Fakes.no_json Samples.unpaved "foo" tt)
      as [[_ [[Hcaptures _] _]] [Hstat _]].
    apply Hcaptures.
    exact (proj2 (Hstat "/env/terraform" "/env/vars" "No state." (Some "no such file")
                    tt tt tt tt eq_refl eq_refl eq_refl) eq_refl).
  - destruct (state_pointer_arguments Fakes.no_json Samples.with_state "foo" tt)
      as [[_ [_ [Hcaptures _]]] [_ Hstat]].
    apply Hcaptures.
    exact (Hstat "/env/terraform" "/env/vars" "No state." None tt tt tt tt
             eq_refl eq_refl eq_refl eq_refl).
  - destruct (state_pointer_arguments Fakes.no_json Samples.unpaved "foo" tt)
      as [[_ [_ [Hcaptures _]]] [_ Hstat]].
    apply Hcaptures.
    exact (Hstat "/env/terraform" "/env/vars" "No state." (Some "no such file")
             tt tt tt tt eq_refl eq_refl eq_refl eq_refl).
Defined.

(** C1 as stated fails: with the terraform directory [/env/terraform], the
    vars directory [/env/vars] and an existing state file, [IsPaved] passes
    [-state /env/vars/terraform.tfstate], while the state file's path
    relative to the terraform directory is [../vars/terraform.tfstate]. *)
Lemma state_pointer_is_not_relative :
  ¬ (∀ c out err,
       In (EvRun c out err) (trace (IsPaved Samples.with_state tt)) →
       c_sink c = Buffer →
       ∃ rel before after,
         filepath_Rel "/env/terraform" (filepath_Join ["/env/vars"; "terraform.tfstate"])
         = Ok rel
         ∧ c_args c = before ++ ["-state"; rel] ++ after).
Proof.
  intros H.
  destruct (H Samples.show_state_call "No state." None)
    as (rel & before & after & Hrel & Hargs).
  - vm_compute. tauto.
  - reflexivity.
  - vm_compute in Hrel. injection Hrel as <-.
    cbn [c_args Samples.show_state_call] in Hargs.
    destruct before as [|x1 [|x2 [|x3 [|x4 before]]]]; cbn in Hargs;
      discriminate Hargs.
Qed.

(** ** Argument assembly *)

(** What the loop over the vars directory appends: one [-var-file] pair
    for every entry ending in [.tfvars], in the order of the listing, each
    with that file's path relative to the terraform directory. *)
Lemma varFileArgs_appends (terraformDir varsDir : string) (varsFiles args args' : list string) :
  varFileArgs terraformDir varsDir varsFiles args = Ok args' →
  ∃ paths,
    Forall2 (λ file path,
               filepath_Rel terraformDir (filepath_Join [varsDir; file]) = Ok path)
            (List.filter (λ file, strings_HasSuffix file ".tfvars") varsFiles) paths
    ∧ args' = args ++ concat ((λ path, ["-var-file"; path]) <$> paths).
Proof.
  revert args; induction varsFiles as [|file rest IH]; intros args.
  - intros [= <-]. exists []. split; [constructor | by rewrite app_nil_r].
  - unfold varFileArgs; fold varFileArgs. cbn [List.filter].
    destruct (strings_HasSuffix file ".tfvars"); [| apply IH].
    destruct (filepath_Rel _ _) as [path | err] eqn:Hrel; [| discriminate].
    intros (paths & Hpaths & ->)%IH.
    exists (path :: paths). split; [by constructor |].
    cbn. by rewrite <- app_assoc.
Qed.

(** C6: the argument list that the shared command logic hands to the
    runner is the caller's arguments, [-state] with the relative state
    path, and then exactly one [-var-file] pair for each entry of the vars
    directory whose name ends in [.tfvars], carrying that file's path
    relative to the terraform directory; entries with another suffix add
    nothing. *)
Theorem var_file_flags {W : Type} (e : Executor W) (args envs : list string) (w : W)
    (c : call) (out : string) (err : option error) :
  In (EvRun c out err) (trace (runTFCommandWithEnvs e args envs w)) →
  ∃ terraformDir varsDir varsFiles statePath paths,
    In (EvGetTerraformDir (Ok terraformDir)) (trace (runTFCommandWithEnvs e args envs w))
    ∧ In (EvGetVarsDir (Ok varsDir)) (trace (runTFCommandWithEnvs e args envs w))
    ∧ In (EvReadDir varsDir (Ok varsFiles)) (trace (runTFCommandWithEnvs e args envs w))
    ∧ filepath_Rel terraformDir (filepath_Join [varsDir; "terraform.tfstate"]) = Ok statePath
    ∧ Forall2 (λ file path,
                 filepath_Rel terraformDir (filepath_Join [varsDir; file]) = Ok path)
              (List.filter (λ file, strings_HasSuffix file ".tfvars") varsFiles) paths
    ∧ c_args c = args ++ ["-state"; statePath]
                      ++ concat ((λ path, ["-var-file"; path]) <$> paths).
Proof.
  revert c out err; all_answers; cbn; intros c out' err'; intuition simplify_eq.
  all: match goal with
       | H : varFileArgs _ _ _ _ = Ok _ |- _ =>
           apply varFileArgs_appends in H as (paths & Hpaths & ->)
       end.
  all: eexists _, _, _, _, paths; cbn; rewrite <- app_assoc;
    repeat split; eauto 10.
Qed.

Lemma var_file_flags_witness :
  In (EvRun Samples.plan_call "" None)
     (trace (runTFCommandWithEnvs Samples.three_files ["plan"] [] tt))
  ∧ ∃ terraformDir varsDir varsFiles statePath paths,
      In (EvGetTerraformDir (Ok terraformDir))
         (trace (runTFCommandWithEnvs Samples.three_files ["plan"] [] tt))
      ∧ In (EvGetVarsDir (Ok varsDir))
           (trace (runTFCommandWithEnvs Samples.three_files ["plan"] [] tt))
      ∧ In (EvReadDir varsDir (Ok varsFiles))
           (trace (runTFCommandWithEnvs Samples.three_files ["plan"] [] tt))
      ∧ filepath_Rel terraformDir (filepath_Join [varsDir; "terraform.tfstate"])
        = Ok statePath
      ∧ Forall2 (λ file path,
                   filepath_Rel terraformDir (filepath_Join [varsDir; file]) = Ok path)
                (List.filter (λ file, strings_HasSuffix file ".tfvars") varsFiles) paths
      ∧ c_args Samples.plan_call
        = ["plan"] ++ ["-state"; statePath]
                   ++ concat ((λ path, ["-var-file"; path]) <$> paths).
Proof.
  assert (In (EvRun Samples.plan_call "" None)
             (trace (runTFCommandWithEnvs Samples.three_files ["plan"] [] tt))) as Hrun
    by (vm_compute; tauto).
  split; [exact Hrun |].
  exact (var_file_flags _ _ _ _ _ _ _ Hrun).
Defined.

(** ** Failures of the runner outside [Apply] and [Destroy] *)

(** C4, amended: for both values of the debug flag, a failure of the
    runner in [Init], [Output], [Outputs] and [IsPaved] comes back as the
    runner's error text behind a prefix that names the command and the
    failed invocation; in [Version] it comes back unchanged, without a
    prefix. *)
Theorem runner_failure_wrapping {W Any : Type}
    (json_Unmarshal : string → result (gmap string (tfOutput Any)))
    (e : Executor W) (outputName : string) (w : W)
    (c : call) (out : string) (err : error) :
  (In (EvRun c out (Some err)) (trace (Init e w)) →
   outcome (Init e w) = Err ("Run terraform init: " +:+ err))
  ∧ (In (EvRun c out (Some err)) (trace (Output e outputName w)) →
     outcome (Output e outputName w)
     = Err (match c_sink c with
            | Stdout => "Run terraform init in terraform dir: "
            | Buffer => "Run terraform output -state: "
            end +:+ err))
  ∧ (In (EvRun c out (Some err)) (trace (Outputs json_Unmarshal e w)) →
     outcome (Outputs json_Unmarshal e w)
     = Err (match c_sink c with
            | Stdout => "Run terraform init in terraform dir: "
            | Buffer => "Run terraform output --json in vars dir: "
            end +:+ err))
  ∧ (In (EvRun c out (Some err)) (trace (IsPaved e w)) →
     outcome (IsPaved e w)
     = Err (match c_sink c with
            | Stdout => "Run terraform init in terraform dir: "
            | Buffer => "Run terraform show: "
            end +:+ err))
  ∧ (In (EvRun c out (Some err)) (trace (Version e w)) →
     outcome (Version e w) = Err err).
Proof.
  repeat split.
  all: revert c out err; all_answers;
    try destruct (json_Unmarshal _); try destruct (String.eqb _ _);
    cbn; intros c out' err'; intuition simplify_eq; done.
Qed.

Lemma runner_failure_wrapping_witness :
  (In (EvRun (Samples.init_call true) "" (Some "exit status 1"))
      (trace (Init Samples.failing_debug tt))
   ∧ outcome (Init Samples.failing_debug tt) = Err "Run terraform init: exit status 1")
  ∧ (In (EvRun Samples.show_call "" (Some "exit status 1"))
        (trace (IsPaved Samples.show_failing tt))
     ∧ outcome (IsPaved Samples.show_failing tt) = Err "Run terraform show: exit status 1")
  ∧ (In (EvRun Samples.version_call "" (Some "exit status 1"))
        (trace (Version Samples.failing tt))
     ∧ outcome (Version Samples.failing tt) = Err "exit status 1").
Proof.
  split; [| split].
  - assert (In (EvRun (Samples.init_call true) "" (Some "exit status 1"))
               (trace (Init Samples.failing_debug tt))) as Hrun
      by (vm_compute; tauto).
    split; [exact Hrun |].
    exact (proj1 (runner_failure_wrapping Fakes.no_json _ "foo" _ _ _ _) Hrun).
  - assert (In (EvRun Samples.show_call "" (Some "exit status 1"))
               (trace (IsPaved Samples.show_failing tt))) as Hrun
      by (vm_compute; tauto).
    split; [exact Hrun |].
    exact (proj1 (proj2 (proj2 (proj2
             (runner_failure_wrapping Fakes.no_json _ "foo" _ _ _ _)))) Hrun).
  - assert (In (EvRun Samples.version_call "" (Some "exit status 1"))
               (trace (Version Samples.failing tt))) as Hrun
      by (vm_compute; tauto).
    split; [exact Hrun |].
    exact (proj2 (proj2 (proj2 (proj2
             (runner_failure_wrapping Fakes.no_json _ "foo" _ _ _ _)))) Hrun).
Defined.

(** C4 as stated fails for [Version]: when its runner fails with
    [exit status 1], the error that comes back is that text alone; no
    non-empty prefix stands before it. *)
Lemma Version_failure_has_no_prefix :
  In (EvRun Samples.version_call "" (Some "exit status 1"))
     (trace (Version Samples.failing tt))
  ∧ ¬ (∃ prefix,
         prefix ≠ ""
         ∧ outcome (Version Samples.failing tt) = Err (prefix +:+ "exit status 1")).
Proof.
  split; [vm_compute; tauto |].
  intros (prefix & Hne & H). vm_compute in H.
  injection H as H. apply (f_equal String.length) in H.
  rewrite sapp_length in H. cbn in H.
  destruct prefix; [done | cbn in H; lia].
Qed.

(** ** The version pattern *)

(** C3 fails on the code: the captured texts [Terraform v0-11-7] and
    [Terraform v0.117] hold no digits-dot-digits-dot-digits substring, yet
    [Version] reports no parse error and returns [0-11-7] and [0.117],
    because the dots of the pattern match any character.  On
    [Terraform v0.11.7] both patterns find [0.11.7]. *)
Theorem Version_accepts_text_without_dots :
  (regexp_FindString spec_version_regex ("Terraform v0-11-7" +:+ str1 newline) = ""
   ∧ outcome (Version Samples.dashed tt) = Ok "0-11-7")
  ∧ (regexp_FindString spec_version_regex ("Terraform v0.117" +:+ str1 newline) = ""
     ∧ outcome (Version Samples.two_part tt) = Ok "0.117")
  ∧ (regexp_FindString spec_version_regex ("Terraform v0.11.7" +:+ str1 newline) = "0.11.7"
     ∧ outcome (Version Samples.dotted tt) = Ok "0.11.7").
Proof. repeat split; vm_compute; reflexivity. Qed.

Section Utf8Facts.

Local Arguments String.append !_ _ : simpl nomatch.

Lemma slice_from_length (n : nat) (s : string) :
  String.length (slice_from n s) = String.length s - n.
Proof.
  revert s; induction n as [|n IH]; intros [|c s]; simpl; by try lia.
Qed.

Lemma utf8_width_bounds (s : string) :
  s ≠ "" → (1 <= utf8_width s <= String.length s)%nat.
Proof.
  destruct s as [|c0 rest]; [done |]. intros _.
  unfold utf8_width. cbv zeta. repeat case_match; simpl; lia.
Qed.

(** Decoding never runs out of steps: the runes of [s] put together are
    [s] again. *)
Lemma decode_runes_concat (fuel : nat) (s : string) :
  (String.length s <= fuel)%nat → concat_strings (decode_runes fuel s) = s.
Proof.
  revert s; induction fuel as [|fuel IH]; intros [|c rest] Hlen; try done.
  - simpl in Hlen. lia.
  - unfold decode_runes; fold decode_runes. cbn [concat_strings].
    assert (1 <= utf8_width (String c rest) <= String.length (String c rest))%nat
      as Hw by (by apply utf8_width_bounds).
    rewrite IH, slice_to_from; [done |].
    rewrite slice_from_length. lia.
Qed.

Lemma utf8_runes_concat (s : string) : concat_strings (utf8_runes s) = s.
Proof. by apply decode_runes_concat. Qed.

End Utf8Facts.


(** * Further properties *)

(** ** Setup *)

Ltac open_setup :=
  unfold setup_error, setup_trace, Setup; cbv zeta;
  repeat case_match; simplify_eq/=.

(** X1: a failed step is the last thing [Setup] does, and [Setup] returns
    no error exactly when no step failed. *)
Theorem Setup_stops_at_first_failure {W : Type} (StateMode : FileMode)
    (e : Executor W) (writer : fileWriter W) (os : osCalls W)
    (template : string) (input : list (string * value)) (w : W) :
  (∀ i ev,
     setup_trace (Setup StateMode e writer os template input w) !! i = Some ev →
     setup_failed ev →
     length (setup_trace (Setup StateMode e writer os template input w)) = S i)
  ∧ (setup_error (Setup StateMode e writer os template input w) = None
     ↔ Forall (λ ev, ¬ setup_failed ev)
              (setup_trace (Setup StateMode e writer os template input w))).
Proof.
  split.
  - intros i ev. open_setup; intros Hi Hfailed;
      destruct i as [|[|[|[|[|[|i]]]]]]; simplify_eq/=; done.
  - open_setup; rewrite ?Forall_cons, ?Forall_nil; cbn; intuition congruence.
Qed.

Lemma Setup_stops_at_first_failure_witness :
  setup_trace (Setup Scripts.state_mode Scripts.plain (Scripts.writer Scripts.refuse_ignore)
                     (Scripts.os None) "resource {}" Scripts.region tt) !! 4
  = Some (SWriteFile "/env/terraform/.terraform/.gitignore" ("*" +:+ str1 newline)
                     Scripts.state_mode (Some "permission denied"))
  ∧ length (setup_trace (Setup Scripts.state_mode Scripts.plain
                               (Scripts.writer Scripts.refuse_ignore)
                               (Scripts.os None) "resource {}" Scripts.region tt)) = 5.
Proof.
  assert (setup_trace (Setup Scripts.state_mode Scripts.plain
                             (Scripts.writer Scripts.refuse_ignore)
                             (Scripts.os None) "resource {}" Scripts.region tt) !! 4
          = Some (SWriteFile "/env/terraform/.terraform/.gitignore" ("*" +:+ str1 newline)
                             Scripts.state_mode (Some "permission denied"))) as Hstep
    by (vm_compute; reflexivity).
  split; [exact Hstep |].
  exact (proj1 (Setup_stops_at_first_failure _ _ _ _ _ _ _) _ _ Hstep I).
Defined.

(** X2: when [Setup] returns no error it has made exactly these exchanges,
    in this order: the template is written to [bbl-template.tf] in the
    terraform directory, the directory [.terraform] is created in it with
    [os.ModePerm], the single line [*] is written to [.terraform/.gitignore],
    and the formatted variables are written to [bbl.tfvars] in the vars
    directory; every file gets the state mode. *)
Theorem Setup_success_writes {W : Type} (StateMode : FileMode)
    (e : Executor W) (writer : fileWriter W) (os : osCalls W)
    (template : string) (input : list (string * value)) (w : W) :
  setup_error (Setup StateMode e writer os template input w) = None →
  ∃ terraformDir varsDir,
    setup_trace (Setup StateMode e writer os template input w)
    = [SGetTerraformDir (Ok terraformDir);
       SWriteFile (filepath_Join [terraformDir; "bbl-template.tf"]) template StateMode None;
       SGetVarsDir (Ok varsDir);
       SMkdirAll (filepath_Join [terraformDir; ".terraform"]) os_ModePerm None;
       SWriteFile (filepath_Join [terraformDir; ".terraform"; ".gitignore"])
                  ("*" +:+ str1 newline) StateMode None;
       SWriteFile (filepath_Join [varsDir; "bbl.tfvars"]) (formatVars_range input)
                  StateMode None].
Proof. open_setup; intros; simplify_eq; eauto. Qed.

Lemma Setup_success_writes_witness :
  setup_error (Setup Scripts.state_mode Scripts.plain (Scripts.writer Scripts.accept_all)
                     (Scripts.os None) "resource {}" Scripts.region tt) = None
  ∧ ∃ terraformDir varsDir,
      setup_trace (Setup Scripts.state_mode Scripts.plain (Scripts.writer Scripts.accept_all)
                         (Scripts.os None) "resource {}" Scripts.region tt)
      = [SGetTerraformDir (Ok terraformDir);
         SWriteFile (filepath_Join [terraformDir; "bbl-template.tf"]) "resource {}"
                    Scripts.state_mode None;
         SGetVarsDir (Ok varsDir);
         SMkdirAll (filepath_Join [terraformDir; ".terraform"]) os_ModePerm None;
         SWriteFile (filepath_Join [terraformDir; ".terraform"; ".gitignore"])
                    ("*" +:+ str1 newline) Scripts.state_mode None;
         SWriteFile (filepath_Join [varsDir; "bbl.tfvars"])
                    (formatVars_range Scripts.region) Scripts.state_mode None].
Proof.
  assert (setup_error (Setup Scripts.state_mode Scripts.plain
                             (Scripts.writer Scripts.accept_all)
                             (Scripts.os None) "resource {}" Scripts.region tt) = None)
    as Hok by (vm_compute; reflexivity).
  split; [exact Hok |].
  exact (Setup_success_writes _ _ _ _ _ _ _ Hok).
Defined.

(** X3: the error of [Setup] names the step that failed.  A failure of the
    state store comes back as it is; a failed write of the template, a
    failed creation of [.terraform], a failed write of [.gitignore] and a
    failed write of the variables come back behind their own prefix.  When
    the vars directory cannot be resolved the template has been written
    already. *)
Theorem Setup_error_names_step {W : Type} (StateMode : FileMode)
    (e : Executor W) (writer : fileWriter W) (os : osCalls W)
    (template : string) (input : list (string * value)) (w : W)
    (path content : string) (mode : FileMode) (err : error) :
  (setup_trace (Setup StateMode e writer os template input w) !! 0
   = Some (SGetTerraformDir (Err err)) →
   setup_error (Setup StateMode e writer os template input w) = Some err)
  ∧ (setup_trace (Setup StateMode e writer os template input w) !! 1
     = Some (SWriteFile path content mode (Some err)) →
     setup_error (Setup StateMode e writer os template input w)
     = Some ("Write terraform template: " +:+ err))
  ∧ (setup_trace (Setup StateMode e writer os template input w) !! 2
     = Some (SGetVarsDir (Err err)) →
     setup_error (Setup StateMode e writer os template input w) = Some err
     ∧ ∃ terraformDir,
         setup_trace (Setup StateMode e writer os template input w) !! 1
         = Some (SWriteFile (filepath_Join [terraformDir; "bbl-template.tf"])
                            template StateMode None))
  ∧ (setup_trace (Setup StateMode e writer os template input w) !! 3
     = Some (SMkdirAll path mode (Some err)) →
     setup_error (Setup StateMode e writer os template input w)
     = Some ("Create .terraform directory: " +:+ err))
  ∧ (setup_trace (Setup StateMode e writer os template input w) !! 4
     = Some (SWriteFile path content mode (Some err)) →
     setup_error (Setup StateMode e writer os template input w)
     = Some ("Write .gitignore for terraform binaries: " +:+ err))
  ∧ (setup_trace (Setup StateMode e writer os template input w) !! 5
     = Some (SWriteFile path content mode (Some err)) →
     setup_error (Setup StateMode e writer os template input w)
     = Some ("Write terraform vars: " +:+ err)).
Proof.
  split; [| split; [| split; [| split; [| split]]]];
    open_setup; intros; simplify_eq; repeat split; eauto.
Qed.

Lemma Setup_error_names_step_witness :
  (setup_trace (Setup Scripts.state_mode Scripts.executor_without_vars_dir
                      (Scripts.writer Scripts.accept_all) (Scripts.os None)
                      "resource {}" Scripts.region tt) !! 2
   = Some (SGetVarsDir (Err "mkdir /env/vars: read-only file system"))
   ∧ setup_error (Setup Scripts.state_mode Scripts.executor_without_vars_dir
                        (Scripts.writer Scripts.accept_all) (Scripts.os None)
                        "resource {}" Scripts.region tt)
     = Some "mkdir /env/vars: read-only file system")
  ∧ (setup_trace (Setup Scripts.state_mode Scripts.plain
                        (Scripts.writer Scripts.refuse_ignore) (Scripts.os None)
                        "resource {}" Scripts.region tt) !! 4
     = Some (SWriteFile "/env/terraform/.terraform/.gitignore" ("*" +:+ str1 newline)
                        Scripts.state_mode (Some "permission denied"))
     ∧ setup_error (Setup Scripts.state_mode Scripts.plain
                          (Scripts.writer Scripts.refuse_ignore) (Scripts.os None)
                          "resource {}" Scripts.region tt)
       = Some "Write .gitignore for terraform binaries: permission denied").
Proof.
  split.
  - assert (setup_trace (Setup Scripts.state_mode Scripts.executor_without_vars_dir
                      (Scripts.writer Scripts.accept_all) (Scripts.os None)
                      "resource {}" Scripts.region tt) !! 2
            = Some (SGetVarsDir (Err "mkdir /env/vars: read-only file system"))) as Hstep
      by (vm_compute; reflexivity).
    split; [exact Hstep |].
    exact (proj1 (proj1 (proj2 (proj2
             (Setup_error_names_step _ _ _ _ _ _ _ "" "" 0%N _))) Hstep)).
  - assert (setup_trace (Setup Scripts.state_mode Scripts.plain
                        (Scripts.writer Scripts.refuse_ignore) (Scripts.os None)
                        "resource {}" Scripts.region tt) !! 4
            = Some (SWriteFile "/env/terraform/.terraform/.gitignore" ("*" +:+ str1 newline)
                               Scripts.state_mode (Some "permission denied"))) as Hstep
      by (vm_compute; reflexivity).
    split; [exact Hstep |].
    exact (proj1 (proj2 (proj2 (proj2 (proj2
             (Setup_error_names_step _ _ _ _ _ _ _ _ _ _ _))))) Hstep).
Defined.

(** ** Apply and Destroy *)

Lemma credentialArgs_pairs (args : list string) (credentials : list (string * string)) :
  credentialArgs args credentials = args ++ var_pairs credentials.
Proof.
  unfold credentialArgs, var_pairs.
  revert args; induction credentials as [|kv credentials IH]; intros args; cbn.
  - by rewrite app_nil_r.
  - rewrite IH. by rewrite <- app_assoc.
Qed.

(** X4: the invocation of [Apply] is a [RunWithEnv] in the terraform
    directory that writes to [os.Stdout], carries the executor's debug flag
    and no environment, and whose arguments are [apply --auto-approve],
    [-var key=value] for every credential in the order visited, [-state]
    with its path, and the [-var-file] pairs.  [Destroy] does the same with
    [destroy -force] and the environment [TF_WARN_OUTPUT_ERRORS=1]. *)
Theorem Apply_Destroy_invocation {W : Type} (e : Executor W)
    (credentials : list (string * string)) (w : W)
    (c : call) (out : string) (err : option error) :
  (In (EvRun c out err) (trace (Apply e credentials w)) →
   ∃ terraformDir statePath paths,
     In (EvGetTerraformDir (Ok terraformDir)) (trace (Apply e credentials w))
     ∧ c = Call Stdout terraformDir
                (["apply"; "--auto-approve"] ++ var_pairs credentials
                 ++ ["-state"; statePath] ++ var_file_pairs paths)
                (Some []) (debug e))
  ∧ (In (EvRun c out err) (trace (Destroy e credentials w)) →
     ∃ terraformDir statePath paths,
       In (EvGetTerraformDir (Ok terraformDir)) (trace (Destroy e credentials w))
       ∧ c = Call Stdout terraformDir
                  (["destroy"; "-force"] ++ var_pairs credentials
                   ++ ["-state"; statePath] ++ var_file_pairs paths)
                  (Some ["TF_WARN_OUTPUT_ERRORS=1"]) (debug e)).
Proof.
  split.
  all: revert c out err; all_answers; cbn; intros c out' err'; intuition simplify_eq.
  all: match goal with
       | H : varFileArgs _ _ _ _ = Ok _ |- _ =>
           apply varFileArgs_appends in H as (paths & _ & ->)
       end.
  all: rewrite credentialArgs_pairs, <- !app_assoc.
  all: eexists _, _, paths; split; [cbn; eauto 10 | reflexivity].
Qed.

Lemma Apply_Destroy_invocation_witness :
  In (EvRun Samples.apply_call "" (Some "exit status 1: token=hunter2"))
     (trace (Apply Samples.leaking [("token", "hunter2")] tt))
  ∧ ∃ terraformDir statePath paths,
      In (EvGetTerraformDir (Ok terraformDir))
         (trace (Apply Samples.leaking [("token", "hunter2")] tt))
      ∧ Samples.apply_call
        = Call Stdout terraformDir
               (["apply"; "--auto-approve"] ++ var_pairs [("token", "hunter2")]
                ++ ["-state"; statePath] ++ var_file_pairs paths)
               (Some []) (debug Samples.leaking).
Proof.
  assert (In (EvRun Samples.apply_call "" (Some "exit status 1: token=hunter2"))
             (trace (Apply Samples.leaking [("token", "hunter2")] tt))) as Hrun
    by (vm_compute; tauto).
  split; [exact Hrun |].
  exact (proj1 (Apply_Destroy_invocation _ _ _ _ _ _) Hrun).
Defined.

(** X5: when the arguments cannot be assembled, [Apply] and [Destroy] never
    reach the runner.  An error of the state store comes back as it is; a
    failed listing of the vars directory and a state path that cannot be
    made relative come back behind their prefix, with their text, whatever
    the debug flag. *)
Theorem assembly_failure_makes_no_invocation {W : Type} (e : Executor W)
    (args envs : list string) (w : W) (err : error)
    (dir terraformDir varsDir : string) :
  (In (EvGetVarsDir (Err err)) (trace (runTFCommandWithEnvs e args envs w))
   ∨ In (EvGetTerraformDir (Err err)) (trace (runTFCommandWithEnvs e args envs w)) →
   outcome (runTFCommandWithEnvs e args envs w) = Err err
   ∧ invocations (trace (runTFCommandWithEnvs e args envs w)) = [])
  ∧ (In (EvReadDir dir (Err err)) (trace (runTFCommandWithEnvs e args envs w)) →
     outcome (runTFCommandWithEnvs e args envs w)
     = Err ("Read contents of vars directory: " +:+ err)
     ∧ invocations (trace (runTFCommandWithEnvs e args envs w)) = [])
  ∧ (In (EvGetVarsDir (Ok varsDir)) (trace (runTFCommandWithEnvs e args envs w)) →
     In (EvGetTerraformDir (Ok terraformDir)) (trace (runTFCommandWithEnvs e args envs w)) →
     filepath_Rel terraformDir (filepath_Join [varsDir; "terraform.tfstate"]) = Err err →
     outcome (runTFCommandWithEnvs e args envs w)
     = Err ("Get relative terraform state path: " +:+ err)
     ∧ invocations (trace (runTFCommandWithEnvs e args envs w)) = []).
Proof.
  split; [| split].
  all: all_answers; cbn; intuition simplify_eq;
    first [done | congruence | unfold Errorf; congruence].
Qed.

Lemma assembly_failure_makes_no_invocation_witness :
  (In (EvReadDir "/env/vars" (Err "open /env/vars: permission denied"))
      (trace (runTFCommandWithEnvs Scripts.executor_unreadable ["apply"] [] tt))
   ∧ outcome (runTFCommandWithEnvs Scripts.executor_unreadable ["apply"] [] tt)
     = Err "Read contents of vars directory: open /env/vars: permission denied"
   ∧ invocations (trace (runTFCommandWithEnvs Scripts.executor_unreadable ["apply"] [] tt))
     = [])
  ∧ (In (EvGetVarsDir (Ok "vars"))
        (trace (runTFCommandWithEnvs Scripts.executor_relative_vars ["apply"] [] tt))
     ∧ In (EvGetTerraformDir (Ok "/env/terraform"))
          (trace (runTFCommandWithEnvs Scripts.executor_relative_vars ["apply"] [] tt))
     ∧ filepath_Rel "/env/terraform" (filepath_Join ["vars"; "terraform.tfstate"])
       = Err "Rel: can't make vars/terraform.tfstate relative to /env/terraform"
     ∧ outcome (runTFCommandWithEnvs Scripts.executor_relative_vars ["apply"] [] tt)
       = Err ("Get relative terraform state path: "
              +:+ "Rel: can't make vars/terraform.tfstate relative to /env/terraform")
     ∧ invocations (trace (runTFCommandWithEnvs Scripts.executor_relative_vars ["apply"] [] tt))
       = []).
Proof.
  split.
  - assert (In (EvReadDir "/env/vars" (Err "open /env/vars: permission denied"))
               (trace (runTFCommandWithEnvs Scripts.executor_unreadable ["apply"] [] tt)))
      as Hlist by (vm_compute; tauto).
    split; [exact Hlist |].
    exact (proj1 (proj2 (assembly_failure_makes_no_invocation _ _ _ _ _ _ "" "")) Hlist).
  - assert (In (EvGetVarsDir (Ok "vars"))
               (trace (runTFCommandWithEnvs Scripts.executor_relative_vars ["apply"] [] tt)))
      as Hvars by (vm_compute; tauto).
    assert (In (EvGetTerraformDir (Ok "/env/terraform"))
               (trace (runTFCommandWithEnvs Scripts.executor_relative_vars ["apply"] [] tt)))
      as Hdir by (vm_compute; tauto).
    assert (filepath_Rel "/env/terraform" (filepath_Join ["vars"; "terraform.tfstate"])
            = Err "Rel: can't make vars/terraform.tfstate relative to /env/terraform")
      as Hrel by (vm_compute; reflexivity).
    split; [exact Hvars |]. split; [exact Hdir |]. split; [exact Hrel |].
    exact (proj2 (proj2 (assembly_failure_makes_no_invocation _ _ _ _ _ "" _ _))
                 Hvars Hdir Hrel).
Defined.

(** X6: [Apply] and [Destroy] invoke the runner at most once, and they
    return no error exactly when that invocation was made and succeeded. *)
Theorem Apply_Destroy_succeed_with_the_runner {W : Type} (e : Executor W)
    (credentials : list (string * string)) (w : W) :
  ((outcome (Apply e credentials w) = Ok tt
    ↔ ∃ c out, In (EvRun c out None) (trace (Apply e credentials w)))
   ∧ (length (invocations (trace (Apply e credentials w))) <= 1)%nat)
  ∧ ((outcome (Destroy e credentials w) = Ok tt
      ↔ ∃ c out, In (EvRun c out None) (trace (Destroy e credentials w)))
     ∧ (length (invocations (trace (Destroy e credentials w))) <= 1)%nat).
Proof.
  split.
  all: all_answers; cbn; (split; [| lia]); split.
  all: try (intros ?; simplify_eq; eexists _, _; eauto 10; fail).
  all: try (intros (c & out' & H); intuition simplify_eq; fail).
  all: try done.
  all: destruct (debug e); done.
Qed.

(** ** Init, Output, Outputs and IsPaved *)

(** X7: in [Init], [Output], [Outputs] and [IsPaved] an error of the state
    store comes back as it is, and the capturing invocation is not made.
    Nothing at all is invoked when the terraform directory is refused, nor
    in [Output] and [Outputs] when the vars directory is; [IsPaved], which
    asks for the vars directory after [init] has succeeded, has then
    invoked [init] and nothing else. *)
Theorem state_store_errors_pass_unchanged {W Any : Type}
    (json_Unmarshal : string → result (gmap string (tfOutput Any)))
    (e : Executor W) (outputName : string) (w : W) (err : error) :
  (In (EvGetTerraformDir (Err err)) (trace (Init e w)) →
   outcome (Init e w) = Err err ∧ invocations (trace (Init e w)) = [])
  ∧ (In (EvGetTerraformDir (Err err)) (trace (Output e outputName w))
     ∨ In (EvGetVarsDir (Err err)) (trace (Output e outputName w)) →
     outcome (Output e outputName w) = Err err
     ∧ invocations (trace (Output e outputName w)) = [])
  ∧ (In (EvGetTerraformDir (Err err)) (trace (Outputs json_Unmarshal e w))
     ∨ In (EvGetVarsDir (Err err)) (trace (Outputs json_Unmarshal e w)) →
     outcome (Outputs json_Unmarshal e w) = Err err
     ∧ invocations (trace (Outputs json_Unmarshal e w)) = [])
  ∧ (In (EvGetTerraformDir (Err err)) (trace (IsPaved e w)) →
     outcome (IsPaved e w) = Err err ∧ invocations (trace (IsPaved e w)) = [])
  ∧ (In (EvGetVarsDir (Err err)) (trace (IsPaved e w)) →
     outcome (IsPaved e w) = Err err
     ∧ ∃ terraformDir initOut,
         trace (IsPaved e w)
         = [EvGetTerraformDir (Ok terraformDir);
            EvRun (Call Stdout terraformDir ["init"] None false) initOut None;
            EvGetVarsDir (Err err)]
         ∧ invocations (trace (IsPaved e w)) = [Call Stdout terraformDir ["init"] None false])
  ∧ (∀ w1,
       GetTerraformDir (store e) w = (Err err, w1) →
       outcome (Init e w) = Err err
       ∧ outcome (Output e outputName w) = Err err
       ∧ outcome (Outputs json_Unmarshal e w) = Err err
       ∧ outcome (IsPaved e w) = Err err)
  ∧ (∀ terraformDir w1 w2,
       GetTerraformDir (store e) w = (Ok terraformDir, w1) →
       GetVarsDir (store e) w1 = (Err err, w2) →
       outcome (Output e outputName w) = Err err
       ∧ outcome (Outputs json_Unmarshal e w) = Err err)
  ∧ (∀ terraformDir initOut w1 w2 w3,
       GetTerraformDir (store e) w = (Ok terraformDir, w1) →
       Run (cmd e) Stdout terraformDir ["init"] false w1 = (initOut, None, w2) →
       GetVarsDir (store e) w2 = (Err err, w3) →
       outcome (IsPaved e w) = Err err
       ∧ invocations (trace (IsPaved e w)) = [Call Stdout terraformDir ["init"] None false]).
Proof.
  split; [| split; [| split; [| split; [| split; [| split; [| split]]]]]].
  1-5: all_answers; try destruct (json_Unmarshal _); try destruct (String.eqb _ _);
    cbn; intuition simplify_eq; try done; eauto.
  - intros w1 Hdir. repeat split; open_command; answer_with Hdir; reflexivity.
  - intros terraformDir w1 w2 Hdir Hvars.
    split; open_command; answer_with Hdir; answer_with Hvars; reflexivity.
  - intros terraformDir initOut w1 w2 w3 Hdir Hinit Hvars.
    split; open_command; answer_with Hdir; answer_with Hinit; answer_with Hvars;
      reflexivity.
Qed.

Lemma state_store_errors_pass_unchanged_witness :
  (In (EvGetVarsDir (Err "mkdir /env/vars: read-only file system"))
      (trace (IsPaved Scripts.executor_without_vars_dir tt))
   ∧ outcome (IsPaved Scripts.executor_without_vars_dir tt)
     = Err "mkdir /env/vars: read-only file system"
   ∧ ∃ terraformDir initOut,
       trace (IsPaved Scripts.executor_without_vars_dir tt)
       = [EvGetTerraformDir (Ok terraformDir);
          EvRun (Call Stdout terraformDir ["init"] None false) initOut None;
          EvGetVarsDir (Err "mkdir /env/vars: read-only file system")]
       ∧ invocations (trace (IsPaved Scripts.executor_without_vars_dir tt))
         = [Call Stdout terraformDir ["init"] None false])
  ∧ (outcome (Output Scripts.executor_without_vars_dir "foo" tt)
     = Err "mkdir /env/vars: read-only file system"
     ∧ outcome (Outputs Fakes.no_json Scripts.executor_without_vars_dir tt)
       = Err "mkdir /env/vars: read-only file system")
  ∧ (outcome (IsPaved Scripts.executor_without_vars_dir tt)
     = Err "mkdir /env/vars: read-only file system"
     ∧ invocations (trace (IsPaved Scripts.executor_without_vars_dir tt))
       = [Samples.init_call false])
  ∧ (outcome (Init Scripts.executor_without_terraform_dir tt)
     = Err "mkdir /env/terraform: read-only file system"
     ∧ outcome (Output Scripts.executor_without_terraform_dir "foo" tt)
       = Err "mkdir /env/terraform: read-only file system"
     ∧ outcome (Outputs Fakes.no_json Scripts.executor_without_terraform_dir tt)
       = Err "mkdir /env/terraform: read-only file system"
     ∧ outcome (IsPaved Scripts.executor_without_terraform_dir tt)
       = Err "mkdir /env/terraform: read-only file system")
  ∧ (In (EvGetTerraformDir (Err "mkdir /env/terraform: read-only file system"))
        (trace (Output Scripts.executor_without_terraform_dir "foo" tt))
     ∧ outcome (Output Scripts.executor_without_terraform_dir "foo" tt)
       = Err "mkdir /env/terraform: read-only file system"
     ∧ invocations (trace (Output Scripts.executor_without_terraform_dir "foo" tt)) = []).
Proof.
  split; [| split; [| split; [| split]]].
  - assert (In (EvGetVarsDir (Err "mkdir /env/vars: read-only file system"))
               (trace (IsPaved Scripts.executor_without_vars_dir tt))) as Hvars
      by (vm_compute; tauto).
    split; [exact Hvars |].
    exact (proj1 (proj2 (proj2 (proj2 (proj2
             (state_store_errors_pass_unchanged Fakes.no_json _ "foo" _ _)))))
           Hvars).
  - exact (proj1 (proj2 (proj2 (proj2 (proj2 (proj2 (proj2
             (state_store_errors_pass_unchanged Fakes.no_json
                Scripts.executor_without_vars_dir "foo" tt
                "mkdir /env/vars: read-only file system")))))))
           "/env/terraform" tt tt eq_refl eq_refl).
  - exact (proj2 (proj2 (proj2 (proj2 (proj2 (proj2 (proj2
             (state_store_errors_pass_unchanged Fakes.no_json
                Scripts.executor_without_vars_dir "foo" tt
                "mkdir /env/vars: read-only file system")))))))
           "/env/terraform" "ok" tt tt tt eq_refl eq_refl eq_refl).
  - exact (proj1 (proj2 (proj2 (proj2 (proj2 (proj2
             (state_store_errors_pass_unchanged Fakes.no_json
                Scripts.executor_without_terraform_dir "foo" tt
                "mkdir /env/terraform: read-only file system"))))))
           tt eq_refl).
  - assert (In (EvGetTerraformDir (Err "mkdir /env/terraform: read-only file system"))
               (trace (Output Scripts.executor_without_terraform_dir "foo" tt))) as Hdir
      by (vm_compute; tauto).
    split; [exact Hdir |].
    exact (proj1 (proj2 (state_store_errors_pass_unchanged Fakes.no_json _ "foo" _ _))
             (or_introl Hdir)).
Defined.

(** X8: when [Output], [Outputs] or [IsPaved] make their capturing
    invocation, exactly two invocations were made: [init], which
    succeeded, and then the capturing one, both in the terraform directory
    the state store answered with. *)
Theorem capture_follows_successful_init {W Any : Type}
    (json_Unmarshal : string → result (gmap string (tfOutput Any)))
    (e : Executor W) (outputName : string) (w : W)
    (tr : list event) (c : call) (out : string) (err : option error) :
  tr = trace (Output e outputName w)
  ∨ tr = trace (Outputs json_Unmarshal e w)
  ∨ tr = trace (IsPaved e w) →
  In (EvRun c out err) tr →
  c_sink c = Buffer →
  ∃ terraformDir dbg initOut,
    In (EvGetTerraformDir (Ok terraformDir)) tr
    ∧ In (EvRun (Call Stdout terraformDir ["init"] None dbg) initOut None) tr
    ∧ invocations tr = [Call Stdout terraformDir ["init"] None dbg; c]
    ∧ c_dir c = terraformDir
    ∧ c_envs c = None.
Proof.
  intros [-> | [-> | ->]]; revert c out err.
  all: all_answers; try destruct (json_Unmarshal _); try destruct (String.eqb _ _);
    cbn; intros c out' err' Hin Hsink; intuition simplify_eq.
  all: eexists _, _, _; cbn; repeat split; eauto 10.
Qed.

Lemma capture_follows_successful_init_witness :
  In (EvRun Samples.show_call "No state." None) (trace (IsPaved Samples.unpaved tt))
  ∧ c_sink Samples.show_call = Buffer
  ∧ ∃ terraformDir dbg initOut,
      In (EvGetTerraformDir (Ok terraformDir)) (trace (IsPaved Samples.unpaved tt))
      ∧ In (EvRun (Call Stdout terraformDir ["init"] None dbg) initOut None)
           (trace (IsPaved Samples.unpaved tt))
      ∧ invocations (trace (IsPaved Samples.unpaved tt))
        = [Call Stdout terraformDir ["init"] None dbg; Samples.show_call]
      ∧ c_dir Samples.show_call = terraformDir
      ∧ c_envs Samples.show_call = None.
Proof.
  assert (In (EvRun Samples.show_call "No state." None)
             (trace (IsPaved Samples.unpaved tt))) as Hrun
    by (vm_compute; tauto).
  split; [exact Hrun |]. split; [reflexivity |].
  exact (capture_follows_successful_init Fakes.no_json Samples.unpaved "foo" tt _ _ _ _
           (or_intror (or_intror eq_refl)) Hrun eq_refl).
Defined.

(** X9: when [init] fails in [Output], [Outputs] or [IsPaved], nothing
    follows it: it is the only invocation, and the state file is not
    looked up. *)
Theorem failed_init_ends_the_command {W Any : Type}
    (json_Unmarshal : string → result (gmap string (tfOutput Any)))
    (e : Executor W) (outputName : string) (w : W)
    (tr : list event) (c : call) (out : string) (err : error) :
  tr = trace (Output e outputName w)
  ∨ tr = trace (Outputs json_Unmarshal e w)
  ∨ tr = trace (IsPaved e w) →
  In (EvRun c out (Some err)) tr →
  c_sink c = Stdout →
  invocations tr = [c] ∧ ∀ path statErr, ¬ In (EvStat path statErr) tr.
Proof.
  intros [-> | [-> | ->]]; revert c out err.
  all: all_answers; try destruct (json_Unmarshal _); try destruct (String.eqb _ _);
    cbn; intros c out' err' Hin Hsink; intuition simplify_eq.
  all: reflexivity.
Qed.

Lemma failed_init_ends_the_command_witness :
  In (EvRun (Samples.init_call false) "" (Some "exit status 1"))
     (trace (IsPaved Samples.failing tt))
  ∧ c_sink (Samples.init_call false) = Stdout
  ∧ invocations (trace (IsPaved Samples.failing tt)) = [Samples.init_call false]
  ∧ ∀ path statErr, ¬ In (EvStat path statErr) (trace (IsPaved Samples.failing tt)).
Proof.
  assert (In (EvRun (Samples.init_call false) "" (Some "exit status 1"))
             (trace (IsPaved Samples.failing tt))) as Hrun
    by (vm_compute; tauto).
  split; [exact Hrun |]. split; [reflexivity |].
  exact (failed_init_ends_the_command Fakes.no_json Samples.failing "foo" tt _ _ _ _
           (or_intror (or_intror eq_refl)) Hrun eq_refl).
Defined.

(** X10: every invocation made by [Init], [Output], [Outputs], [IsPaved],
    [Apply] and [Destroy] runs in the terraform directory the state store
    answered with.  [Version] consults neither the state store nor the file
    system: its one exchange is the [version] invocation in [/tmp]. *)
Theorem invocations_run_in_the_terraform_directory {W Any : Type}
    (json_Unmarshal : string → result (gmap string (tfOutput Any)))
    (e : Executor W) (outputName : string) (credentials : list (string * string))
    (w : W) (tr : list event) (c : call) (out : string) (err : option error) :
  (tr = trace (Init e w) ∨ tr = trace (Output e outputName w)
   ∨ tr = trace (Outputs json_Unmarshal e w) ∨ tr = trace (IsPaved e w)
   ∨ tr = trace (Apply e credentials w) ∨ tr = trace (Destroy e credentials w) →
   In (EvRun c out err) tr →
   In (EvGetTerraformDir (Ok (c_dir c))) tr)
  ∧ ∃ versionOut versionErr,
      trace (Version e w) = [EvRun (Call Buffer "/tmp" ["version"] None true)
                                   versionOut versionErr].
Proof.
  split.
  - intros [-> | [-> | [-> | [-> | [-> | ->]]]]]; revert c out err.
    all: all_answers; try destruct (json_Unmarshal _); try destruct (String.eqb _ _);
      cbn; intros c out' err' Hin; intuition simplify_eq; cbn; auto.
  - all_answers; try destruct (String.eqb _ _); cbn; eauto.
Qed.

Lemma invocations_run_in_the_terraform_directory_witness :
  In (EvRun Samples.show_call "No state." None) (trace (IsPaved Samples.unpaved tt))
  ∧ In (EvGetTerraformDir (Ok (c_dir Samples.show_call)))
       (trace (IsPaved Samples.unpaved tt)).
Proof.
  assert (In (EvRun Samples.show_call "No state." None)
             (trace (IsPaved Samples.unpaved tt))) as Hrun
    by (vm_compute; tauto).
  split; [exact Hrun |].
  exact (proj1 (invocations_run_in_the_terraform_directory
                  Fakes.no_json Samples.unpaved "foo" [] tt _ _ _ _)
               (or_intror (or_intror (or_intror (or_introl eq_refl)))) Hrun).
Defined.

(** ** The version pattern, continued *)

Section RegexpFacts.

Local Arguments String.append !_ _ : simpl nomatch.

Lemma match_here_plus (c : re_class) (rest : list re_item) (rs : list string) :
  match_here (RePlus c :: rest) rs = plus_first c (match_here rest) rs.
Proof.
  destruct rs as [|r rs]; [reflexivity |].
  cbn [match_here plus_first]. destruct (class_matches c r); [| reflexivity].
  f_equal. induction rs as [|r' rs IH]; [reflexivity |].
  cbn [plus_more]. rewrite <- IH. reflexivity.
Qed.

Lemma match_here_one (c : re_class) (rest : list re_item) (rs : list string) :
  match_here (ReOne c :: rest) rs
  = match rs with
    | r :: rs' => if class_matches c r then cons r <$> match_here rest rs' else None
    | [] => None
    end.
Proof. by destruct rs. Qed.

Lemma plus_more_inv (c : re_class) (k : list string → option (list string))
    (P : list string → Prop) :
  (∀ rs m, k rs = Some m → P m) →
  (∀ r m, class_matches c r = true → P m → P (r :: m)) →
  ∀ rs m, plus_more c k rs = Some m → P m.
Proof.
  intros Hk Hcons rs; induction rs as [|r rs IH]; intros m; cbn [plus_more].
  - apply Hk.
  - destruct (class_matches c r) eqn:Hc; [| apply Hk].
    destruct (plus_more c k rs) as [m' |]; cbn; [| apply Hk].
    intros [= <-]. by apply Hcons, IH.
Qed.

Lemma plus_more_prefix (c : re_class) (k : list string → option (list string)) :
  (∀ rs m, k rs = Some m → ∃ rest, rs = m ++ rest) →
  ∀ rs m, plus_more c k rs = Some m → ∃ rest, rs = m ++ rest.
Proof.
  intros Hk rs; induction rs as [|r rs IH]; intros m; cbn [plus_more].
  - apply Hk.
  - destruct (class_matches c r); [| apply Hk].
    destruct (plus_more c k rs) as [m' |]; cbn; [| apply Hk].
    intros [= <-]. destruct (IH m' eq_refl) as [rest ->]. by exists rest.
Qed.

(** A match at the head of the runes is a prefix of them. *)
Lemma match_here_prefix (re : list re_item) (rs m : list string) :
  match_here re rs = Some m → ∃ rest, rs = m ++ rest.
Proof.
  revert rs m; induction re as [|[c | c] re IH]; intros rs m.
  - intros [= <-]. by exists rs.
  - destruct rs as [|r rs]; cbn [match_here]; [done |].
    destruct (class_matches c r); [| done].
    destruct (match_here re rs) as [m' |] eqn:Hm; cbn; [| done].
    intros [= <-]. destruct (IH _ _ Hm) as [rest ->]. by exists rest.
  - rewrite match_here_plus. destruct rs as [|r rs]; cbn [plus_first]; [done |].
    destruct (class_matches c r); [| done].
    destruct (plus_more c (match_here re) rs) as [m' |] eqn:Hm; cbn; [| done].
    intros [= <-]. destruct (plus_more_prefix c _ IH _ _ Hm) as [rest ->]. by exists rest.
Qed.

(** A match begins with a rune of the class of the first item. *)
Lemma match_here_first (it : re_item) (re : list re_item) (rs m : list string) :
  match_here (it :: re) rs = Some m →
  ∃ r m', m = r :: m' ∧ class_matches (item_class it) r = true.
Proof.
  destruct it as [c | c]; [| rewrite match_here_plus];
    destruct rs as [|r rs]; cbn [match_here plus_first item_class]; try done.
  - destruct (class_matches c r) eqn:Hc; [| done].
    destruct (match_here re rs); cbn; [| done]. intros [= <-]. eauto.
  - destruct (class_matches c r) eqn:Hc; [| done].
    destruct (plus_more c (match_here re) rs); cbn; [| done]. intros [= <-]. eauto.
Qed.

Lemma last_cons_default {A : Type} (x d : A) (l : list A) :
  List.last (x :: l) d = List.last l x.
Proof.
  revert x d; induction l as [|y l IH]; intros x d; [reflexivity |].
  change (List.last (x :: y :: l) d) with (List.last (y :: l) d).
  by rewrite (IH y d), (IH y x).
Qed.

(** A match ends with a rune of the class of the last item. *)
Lemma match_here_last (it : re_item) (re : list re_item) (rs m : list string) :
  match_here (it :: re) rs = Some m →
  ∃ m' r, m = m' ++ [r] ∧ class_matches (item_class (List.last re it)) r = true.
Proof.
  revert it rs m; induction re as [|it' re IH]; intros it rs m.
  - destruct it as [c | c]; [| rewrite match_here_plus];
      destruct rs as [|r rs]; cbn [match_here plus_first item_class List.last]; try done.
    + destruct (class_matches c r) eqn:Hc; [| done]. cbn.
      intros [= <-]. by exists [], r.
    + destruct (class_matches c r) eqn:Hc; [| done].
      destruct (plus_more c _ rs) as [m' |] eqn:Hm; cbn; [| done].
      intros [= <-].
      assert (Forall (λ r, class_matches c r = true) m') as Hall.
      { revert Hm. apply plus_more_inv.
        - by intros ? ? [= <-].
        - by constructor. }
      destruct m' as [|x m' _] using rev_ind; [by exists [], r |].
      rewrite Forall_app, Forall_singleton in Hall. destruct Hall as [_ Hx].
      exists (r :: m'), x. split; [reflexivity | exact Hx].
  - rewrite last_cons_default.
    assert (∀ r m', (∃ m0 x, m' = m0 ++ [x]
                       ∧ class_matches (item_class (List.last re it')) x = true) →
                    ∃ m0 x, r :: m' = m0 ++ [x]
                       ∧ class_matches (item_class (List.last re it')) x = true) as Hcons.
    { intros r m' (m0 & x & -> & Hx). by exists (r :: m0), x. }
    destruct it as [c | c]; [rewrite match_here_one | rewrite match_here_plus];
      destruct rs as [|r rs]; cbn [plus_first]; try done.
    + destruct (class_matches c r); [| done].
      destruct (match_here (it' :: re) rs) as [m' |] eqn:Hm; cbn; [| done].
      intros [= <-]. apply Hcons. by eapply IH.
    + destruct (class_matches c r); [| done].
      destruct (plus_more c (match_here (it' :: re)) rs) as [m' |] eqn:Hm; cbn; [| done].
      intros [= <-]. apply Hcons.
      refine (plus_more_inv c _
                (λ m, ∃ m0 x, m = m0 ++ [x]
                        ∧ class_matches (item_class (List.last re it')) x = true)
                _ _ _ _ Hm).
      * intros ? ?. apply IH.
      * intros ? ? _. apply Hcons.
Qed.

(** What [find_runes] finds occurs in the runes, and is a match where it
    occurs. *)
Lemma find_runes_infix (re : list re_item) (rs m : list string) :
  find_runes re rs = Some m →
  ∃ before after, rs = before ++ m ++ after ∧ match_here re (m ++ after) = Some m.
Proof.
  induction rs as [|r rs IH]; cbn [find_runes].
  - destruct (match_here re []) as [m' |] eqn:Hm; [| done].
    intros [= <-]. destruct (match_here_prefix _ _ _ Hm) as [rest Hrest].
    exists [], rest. by rewrite <- Hrest.
  - destruct (match_here re (r :: rs)) as [m' |] eqn:Hm.
    + intros [= <-]. destruct (match_here_prefix _ _ _ Hm) as [rest Hrest].
      exists [], rest. by rewrite <- Hrest.
    + intros (before & after & -> & Hmatch)%IH. by exists (r :: before), after.
Qed.

Lemma plus_more_mono (c c' : re_class) (k k' : list string → option (list string)) :
  (∀ r, class_matches c r = true → class_matches c' r = true) →
  (∀ rs, is_Some (k rs) → is_Some (k' rs)) →
  ∀ rs, is_Some (plus_more c k rs) → is_Some (plus_more c' k' rs).
Proof.
  intros Hc Hk rs; induction rs as [|r rs IH]; cbn [plus_more]; [apply Hk |].
  destruct (class_matches c r) eqn:Hr.
  - rewrite (Hc _ Hr).
    destruct (plus_more c k rs) as [m |]; cbn.
    + intros _. destruct (IH (mk_is_Some _ _ eq_refl)) as [m' ->]. by cbn.
    + intros Hrest. destruct (plus_more c' k' rs); cbn; [done | by apply Hk].
  - intros Hrest.
    destruct (class_matches c' r); [| by apply Hk].
    destruct (plus_more c' k' rs); cbn; [done | by apply Hk].
Qed.

(** A pattern that accepts more runes item by item matches wherever the
    narrower pattern does. *)
Lemma match_here_mono (re re' : list re_item) :
  Forall2 item_le re re' →
  ∀ rs, is_Some (match_here re rs) → is_Some (match_here re' rs).
Proof.
  induction 1 as [|it it' re re' Hle _ IH]; [done |].
  destruct it as [c | c], it' as [c' | c']; try done; cbn [item_le] in Hle; intros rs.
  - destruct rs as [|r rs]; cbn [match_here]; [done |].
    destruct (class_matches c r) eqn:Hr; [| by intros [? [=]]].
    rewrite (Hle _ Hr).
    destruct (match_here re rs) as [m |] eqn:Hm; cbn; [| by intros [? [=]]].
    intros _. destruct (IH rs) as [m' ->]; [by rewrite Hm | by cbn].
  - rewrite !match_here_plus. destruct rs as [|r rs]; cbn [plus_first]; [done |].
    destruct (class_matches c r) eqn:Hr; [| by intros [? [=]]].
    rewrite (Hle _ Hr).
    destruct (plus_more c (match_here re) rs) as [m |] eqn:Hm; cbn; [| by intros [? [=]]].
    intros _.
    destruct (plus_more_mono c c' _ _ Hle IH rs) as [m' ->]; [by rewrite Hm | by cbn].
Qed.

Lemma find_runes_mono (re re' : list re_item) :
  Forall2 item_le re re' →
  ∀ rs, is_Some (find_runes re rs) → is_Some (find_runes re' rs).
Proof.
  intros Hle rs; induction rs as [|r rs IH]; cbn [find_runes].
  - destruct (match_here re []) eqn:Hm; [| by intros [? [=]]].
    intros _. destruct (match_here_mono _ _ Hle []) as [m' ->]; [by rewrite Hm | done].
  - destruct (match_here re (r :: rs)) eqn:Hm.
    + intros _. destruct (match_here_mono _ _ Hle (r :: rs)) as [m' ->];
        [by rewrite Hm | done].
    + intros Hrest. destruct (match_here re' (r :: rs)); [done | by apply IH].
Qed.

Lemma digit_rune (r : string) :
  class_matches ClassDigit r = true → ∃ d, r = str1 d ∧ is_digit d.
Proof.
  destruct r as [|d [|? ?]]; cbn; try done. intros Hd. by exists d.
Qed.

(** What the pattern of [Version] finds: nothing, or a piece of the text
    that begins and ends with a digit. *)
Lemma FindString_version_regex (s : string) :
  regexp_FindString version_regex s = ""
  ∨ substring_of (regexp_FindString version_regex s) s
    ∧ (∃ d, first_byte (regexp_FindString version_regex s) = Some d ∧ is_digit d)
    ∧ (∃ d, last_byte (regexp_FindString version_regex s) = Some d ∧ is_digit d).
Proof.
  unfold regexp_FindString.
  destruct (find_runes version_regex (utf8_runes s)) as [m |] eqn:Hfind; [right | by left].
  apply find_runes_infix in Hfind as (before & after & Hrunes & Hmatch).
  split; [| split].
  - exists (concat_strings before), (concat_strings after).
    by rewrite <- !concat_strings_app, <- Hrunes, utf8_runes_concat.
  - apply match_here_first in Hmatch as (r & m' & -> & Hr).
    apply digit_rune in Hr as (d & -> & Hd). by exists d.
  - apply match_here_last in Hmatch as (m' & r & -> & Hr).
    apply digit_rune in Hr as (d & -> & Hd). exists d. split; [| done].
    rewrite concat_strings_app. cbn [concat_strings].
    rewrite sapp_nil_r. apply last_byte_snoc.
Qed.

Lemma version_regex_widens_spec : Forall2 item_le spec_version_regex version_regex.
Proof.
  repeat constructor; cbn; try done.
  all: intros r Hr; apply String.eqb_eq in Hr as ->; reflexivity.
Qed.

End RegexpFacts.

Lemma find_version_regex_not_empty (s : string) :
  is_Some (find_runes version_regex (utf8_runes s)) →
  regexp_FindString version_regex s ≠ "".
Proof.
  intros [m Hfind]. unfold regexp_FindString. rewrite Hfind.
  apply find_runes_infix in Hfind as (before & after & _ & Hmatch).
  apply match_here_first in Hmatch as (r & m' & -> & Hr).
  by apply digit_rune in Hr as (d & -> & _).
Qed.

(** X11: a version returned by [Version] is a piece of the text the
    [version] invocation wrote; it is not empty, and it begins and ends
    with a digit. *)
Theorem Version_result_shape {W : Type} (e : Executor W) (w : W) (v : string) :
  outcome (Version e w) = Ok v →
  ∃ c out,
    In (EvRun c out None) (trace (Version e w))
    ∧ substring_of v out
    ∧ (∃ d, first_byte v = Some d ∧ is_digit d)
    ∧ (∃ d, last_byte v = Some d ∧ is_digit d).
Proof.
  all_answers; [cbn; done |].
  destruct (String.eqb_spec (regexp_FindString version_regex out) "") as [| Hne];
    cbn; [done |].
  intros [= <-]. eexists _, out. split; [by left |].
  by destruct (FindString_version_regex out).
Qed.

Lemma Version_result_shape_witness :
  outcome (Version Samples.dotted tt) = Ok "0.11.7"
  ∧ ∃ c out,
      In (EvRun c out None) (trace (Version Samples.dotted tt))
      ∧ substring_of "0.11.7" out
      ∧ (∃ d, first_byte "0.11.7" = Some d ∧ is_digit d)
      ∧ (∃ d, last_byte "0.11.7" = Some d ∧ is_digit d).
Proof.
  assert (outcome (Version Samples.dotted tt) = Ok "0.11.7") as Hversion
    by (vm_compute; reflexivity).
  split; [exact Hversion |].
  exact (Version_result_shape _ _ _ Hversion).
Defined.

(** X12: when the text written by the [version] invocation holds
    digits, a dot, digits, a dot and digits, [Version] does not report a
    parse error: it returns a version. *)
Theorem Version_accepts_every_dotted_version {W : Type} (e : Executor W) (w : W)
    (c : call) (out : string) :
  In (EvRun c out None) (trace (Version e w)) →
  regexp_FindString spec_version_regex out ≠ "" →
  ∃ v, outcome (Version e w) = Ok v.
Proof.
  intros Hrun Hspec.
  assert (regexp_FindString version_regex out ≠ "") as Hcode.
  { apply find_version_regex_not_empty.
    apply (find_runes_mono _ _ version_regex_widens_spec).
    unfold regexp_FindString in Hspec.
    by destruct (find_runes spec_version_regex (utf8_runes out)). }
  revert c Hrun; all_answers; [cbn; intros c Hrun; intuition simplify_eq |].
  destruct (String.eqb_spec (regexp_FindString version_regex out0) "") as [Hempty |];
    cbn; intros c [Hrun | []]; simplify_eq; first [by destruct Hcode | eauto].
Qed.

Lemma Version_accepts_every_dotted_version_witness :
  In (EvRun Samples.version_call ("Terraform v0.11.7" +:+ str1 newline) None)
     (trace (Version Samples.dotted tt))
  ∧ regexp_FindString spec_version_regex ("Terraform v0.11.7" +:+ str1 newline) ≠ ""
  ∧ ∃ v, outcome (Version Samples.dotted tt) = Ok v.
Proof.
  assert (In (EvRun Samples.version_call ("Terraform v0.11.7" +:+ str1 newline) None)
             (trace (Version Samples.dotted tt))) as Hrun
    by (vm_compute; tauto).
  assert (regexp_FindString spec_version_regex ("Terraform v0.11.7" +:+ str1 newline) ≠ "")
    as Hspec by (vm_compute; discriminate).
  split; [exact Hrun |]. split; [exact Hspec |].
  exact (Version_accepts_every_dotted_version _ _ _ _ Hrun Hspec).
Defined.

(** ** Outputs *)

(** X13: when both invocations of [Outputs] succeed, its answer is decided
    by the decoding of the captured text: a decoding error comes back
    behind [Unmarshal terraform output: ], and a decoded report comes back
    as a map with the same names that holds the [Value] of every entry and
    nothing of its [Sensitive] and [Type] fields. *)
Theorem Outputs_returns_the_values {W Any : Type}
    (json_Unmarshal : string → result (gmap string (tfOutput Any)))
    (e : Executor W) (w : W) (c : call) (buffer : string) :
  In (EvRun c buffer None) (trace (Outputs json_Unmarshal e w)) →
  c_sink c = Buffer →
  (∀ tfOutputs,
     json_Unmarshal buffer = Ok tfOutputs →
     ∃ outputs,
       outcome (Outputs json_Unmarshal e w) = Ok outputs
       ∧ dom outputs = dom tfOutputs
       ∧ ∀ name, outputs !! name = Value <$> tfOutputs !! name)
  ∧ (∀ err,
       json_Unmarshal buffer = Err err →
       outcome (Outputs json_Unmarshal e w)
       = Err ("Unmarshal terraform output: " +:+ err)).
Proof.
  revert c; all_answers;
    try match goal with
        | |- context [json_Unmarshal ?b] =>
            destruct (json_Unmarshal b) as [decoded | jsonErr] eqn:Hjson
        end;
    cbn; intros c Hrun Hsink; intuition simplify_eq.
  all: match goal with
       | H1 : ?decode ?b = _, H2 : ?decode ?b = _ |- _ =>
           rewrite H1 in H2; simplify_eq
       end.
  all: try done.
  all: eexists; split; [reflexivity |]; split;
    [apply dom_fmap_L | intros name; apply lookup_fmap].
Qed.

Lemma Outputs_returns_the_values_witness :
  In (EvRun (Call Buffer "/env/terraform"
                  ["output"; "--json"; "-state"; "/env/vars/terraform.tfstate"] None true)
            "ok" None)
     (trace (Outputs Scripts.one_output Scripts.plain tt))
  ∧ Scripts.one_output "ok"
    = Ok {[ "director_password" :=
              {| Sensitive := true; Type_ := "string"; Value := "hunter2" |} ]}
  ∧ ∃ outputs,
      outcome (Outputs Scripts.one_output Scripts.plain tt) = Ok outputs
      ∧ dom outputs
        = dom ({[ "director_password" :=
                    {| Sensitive := true; Type_ := "string"; Value := "hunter2" |} ]}
               : gmap string (tfOutput string))
      ∧ ∀ name,
          outputs !! name
          = Value <$> ({[ "director_password" :=
                            {| Sensitive := true; Type_ := "string"; Value := "hunter2" |} ]}
                       : gmap string (tfOutput string)) !! name.
Proof.
  assert (In (EvRun (Call Buffer "/env/terraform"
                  ["output"; "--json"; "-state"; "/env/vars/terraform.tfstate"] None true)
            "ok" None)
     (trace (Outputs Scripts.one_output Scripts.plain tt))) as Hrun
    by (vm_compute; tauto).
  split; [exact Hrun |]. split; [reflexivity |].
  exact (proj1 (Outputs_returns_the_values Scripts.one_output _ _ _ _ Hrun eq_refl)
               _ eq_refl).
Defined.

(** ** The variable formatter, continued *)

Section FormatVarsMore.

Local Arguments String.append !_ _ : simpl nomatch.

Lemma quoted_join (x : string) (l : list string) :
  str1 dquote +:+ strings_Join (x :: l) (String dquote (String "," (str1 dquote)))
              +:+ str1 dquote
  = strings_Join (quoted <$> (x :: l)) ",".
Proof.
  revert x; induction l as [|y l IH]; intros x; [reflexivity |].
  change (strings_Join (x :: y :: l) (String dquote (String "," (str1 dquote))))
    with (x +:+ String dquote (String "," (str1 dquote))
            +:+ strings_Join (y :: l) (String dquote (String "," (str1 dquote)))).
  change (strings_Join (quoted <$> x :: y :: l) ",")
    with (quoted x +:+ "," +:+ strings_Join (quoted <$> y :: l) ",").
  rewrite <- IH. unfold quoted. rewrite !sapp_assoc. reflexivity.
Qed.

Lemma byte_count_app (c : ascii) (a b : string) :
  byte_count c (a +:+ b) = byte_count c a + byte_count c b.
Proof. induction a as [|x a IH]; simpl; [done | rewrite IH; lia]. Qed.

Lemma concat_strings_perm_count (c : ascii) (l l' : list string) :
  l ≡ₚ l' → byte_count c (concat_strings l) = byte_count c (concat_strings l').
Proof.
  induction 1; cbn [concat_strings]; rewrite ?byte_count_app; lia.
Qed.

Lemma concat_strings_perm_length (l l' : list string) :
  l ≡ₚ l' → String.length (concat_strings l) = String.length (concat_strings l').
Proof.
  induction 1; cbn [concat_strings]; rewrite ?sapp_length; lia.
Qed.

End FormatVarsMore.

(** X14: a list of strings is rendered as its elements, each between
    double quotes and as it is, separated by commas and enclosed in
    brackets; the empty list is rendered like the list of one empty
    string. *)
Theorem list_value_rendering (valList : list string) :
  formatVars_value (VStrings valList)
  = "[" +:+ strings_Join (quoted <$> match valList with
                                      | [] => [""]
                                      | _ :: _ => valList
                                      end) ","
        +:+ "]".
Proof.
  unfold formatVars_value. rewrite <- !sapp_assoc.
  destruct valList as [|x l]; [reflexivity |].
  rewrite <- quoted_join. by rewrite !sapp_assoc.
Qed.

(** X15: of a scalar only the newlines are rewritten.  A scalar without a
    newline is printed between the quotes as it is, double quotes and
    backslashes included, so a newline and the two bytes backslash-n are
    printed alike. *)
Theorem scalar_escaping_is_lossy (s left_part right_part : string) :
  (¬ occurs newline s → formatVars_value (VString s) = quoted s)
  ∧ formatVars_value (VString (left_part +:+ str1 newline +:+ right_part))
    = formatVars_value (VString (left_part +:+ String backslash "n" +:+ right_part)).
Proof.
  split.
  - intros Hs. by rewrite formatVars_value_string, escape_id.
  - by rewrite !formatVars_value_string, !escape_app.
Qed.

Lemma scalar_escaping_is_lossy_witness :
  ¬ occurs newline ("say " +:+ str1 dquote +:+ "hi" +:+ str1 dquote)
  ∧ formatVars_value (VString ("say " +:+ str1 dquote +:+ "hi" +:+ str1 dquote))
    = quoted ("say " +:+ str1 dquote +:+ "hi" +:+ str1 dquote).
Proof.
  assert (¬ occurs newline ("say " +:+ str1 dquote +:+ "hi" +:+ str1 dquote)) as Hs
    by (vm_compute; intuition discriminate).
  split; [exact Hs |].
  exact (proj1 (scalar_escaping_is_lossy _ "" "") Hs).
Defined.

(** X16: the results of the variable formatter on one mapping differ only
    in the order of their segments: any two of them have the same length
    and hold every byte equally often, and a mapping with at most one
    entry has one result. *)
Theorem formatVars_results_are_rearrangements
    (inputs : gmap string value) (out1 out2 : string) :
  formatVars inputs out1 →
  formatVars inputs out2 →
  String.length out1 = String.length out2
  ∧ (∀ c, byte_count c out1 = byte_count c out2)
  ∧ ((size inputs <= 1)%nat → out1 = out2).
Proof.
  intros (l1 & H1 & ->) (l2 & H2 & ->). unfold range_order in *.
  rewrite !formatVars_range_segments.
  assert (segment <$> l1 ≡ₚ segment <$> l2) as Hperm by (by rewrite H1, H2).
  split; [by apply concat_strings_perm_length |].
  split; [intros c; by apply concat_strings_perm_count |].
  intros Hsize. rewrite <- length_map_to_list in Hsize.
  destruct (map_to_list inputs) as [|kv [|kv' rest]]; cbn in Hsize; [| | lia].
  - apply Permutation_nil_r in H1 as ->. by apply Permutation_nil_r in H2 as ->.
  - apply Permutation_singleton_r in H1 as ->.
    by apply Permutation_singleton_r in H2 as ->.
Qed.

Lemma formatVars_results_are_rearrangements_witness :
  formatVars Scripts.two_inputs
             (formatVars_range [("az", VStrings ["a"; "b"]); ("region", VString "us")])
  ∧ formatVars Scripts.two_inputs
               (formatVars_range [("region", VString "us"); ("az", VStrings ["a"; "b"])])
  ∧ String.length
      (formatVars_range [("az", VStrings ["a"; "b"]); ("region", VString "us")])
    = String.length
        (formatVars_range [("region", VString "us"); ("az", VStrings ["a"; "b"])]).
Proof.
  assert (map_to_list Scripts.two_inputs
          ≡ₚ [("az", VStrings ["a"; "b"]); ("region", VString "us")]) as Hlist.
  { unfold Scripts.two_inputs.
    rewrite map_to_list_insert by (by vm_compute).
    by rewrite map_to_list_singleton. }
  assert (formatVars Scripts.two_inputs
            (formatVars_range [("az", VStrings ["a"; "b"]); ("region", VString "us")]))
    as Hout1 by (eexists; split; [unfold range_order; symmetry; exact Hlist | reflexivity]).
  assert (formatVars Scripts.two_inputs
            (formatVars_range [("region", VString "us"); ("az", VStrings ["a"; "b"])]))
    as Hout2.
  { eexists; split; [| reflexivity]. unfold range_order.
    rewrite Hlist. apply Permutation_swap. }
  split; [exact Hout1 |]. split; [exact Hout2 |].
  exact (proj1 (formatVars_results_are_rearrangements _ _ _ Hout1 Hout2)).
Defined.

(** ** Init *)

(** X17: once the state store has answered with the terraform directory,
    [Init] makes exactly one invocation: [init] without further arguments,
    in that directory, writing to [os.Stdout], with the executor's debug
    flag; and [Init] returns no error exactly when that invocation
    succeeded.  When the state store refuses the terraform directory,
    [Init] invokes nothing and returns the store's error. *)
Theorem Init_invocation {W : Type} (e : Executor W) (w : W) :
  (∀ terraformDir out err w1 w2,
     GetTerraformDir (store e) w = (Ok terraformDir, w1) →
     Run (cmd e) Stdout terraformDir ["init"] (debug e) w1 = (out, err, w2) →
     trace (Init e w)
     = [EvGetTerraformDir (Ok terraformDir);
        EvRun (Call Stdout terraformDir ["init"] None (debug e)) out err]
     ∧ invocations (trace (Init e w)) = [Call Stdout terraformDir ["init"] None (debug e)]
     ∧ (outcome (Init e w) = Ok tt ↔ err = None))
  ∧ (∀ err w1,
       GetTerraformDir (store e) w = (Err err, w1) →
       trace (Init e w) = [EvGetTerraformDir (Err err)]
       ∧ invocations (trace (Init e w)) = []
       ∧ outcome (Init e w) = Err err)
  ∧ (∀ c out err,
       In (EvRun c out err) (trace (Init e w)) →
       (∃ terraformDir, c = Call Stdout terraformDir ["init"] None (debug e))
       ∧ invocations (trace (Init e w)) = [c]
       ∧ (outcome (Init e w) = Ok tt ↔ err = None)).
Proof.
  split; [| split].
  - intros terraformDir out err w1 w2 Hdir Hinit. open_command.
    answer_with Hdir. answer_with Hinit. by destruct err.
  - intros err w1 Hdir. open_command. by answer_with Hdir.
  - all_answers; cbn; intros c out' err' Hrun; intuition simplify_eq; eauto.
Qed.

Lemma Init_invocation_witness :
  (trace (Init Samples.failing_debug tt)
   = [EvGetTerraformDir (Ok "/env/terraform");
      EvRun (Samples.init_call true) "" (Some "exit status 1")]
   ∧ invocations (trace (Init Samples.failing_debug tt)) = [Samples.init_call true]
   ∧ (outcome (Init Samples.failing_debug tt) = Ok tt
      ↔ Some ("exit status 1" : error) = None))
  ∧ (trace (Init Samples.silent tt)
     = [EvGetTerraformDir (Ok "/env/terraform"); EvRun (Samples.init_call false) "ok" None]
     ∧ invocations (trace (Init Samples.silent tt)) = [Samples.init_call false]
     ∧ (outcome (Init Samples.silent tt) = Ok tt ↔ (None : option error) = None))
  ∧ (trace (Init Scripts.executor_without_terraform_dir tt)
     = [EvGetTerraformDir (Err "mkdir /env/terraform: read-only file system")]
     ∧ invocations (trace (Init Scripts.executor_without_terraform_dir tt)) = []
     ∧ outcome (Init Scripts.executor_without_terraform_dir tt)
       = Err "mkdir /env/terraform: read-only file system")
  ∧ (In (EvRun (Samples.init_call true) "" (Some "exit status 1"))
        (trace (Init Samples.failing_debug tt))
     ∧ (∃ terraformDir,
          Samples.init_call true
          = Call Stdout terraformDir ["init"] None (debug Samples.failing_debug))
     ∧ invocations (trace (Init Samples.failing_debug tt)) = [Samples.init_call true]
     ∧ (outcome (Init Samples.failing_debug tt) = Ok tt
        ↔ Some ("exit status 1" : error) = None)).
Proof.
  split; [| split; [| split]].
  - exact (proj1 (Init_invocation Samples.failing_debug tt)
             "/env/terraform" "" (Some "exit status 1") tt tt eq_refl eq_refl).
  - exact (proj1 (Init_invocation Samples.silent tt)
             "/env/terraform" "ok" None tt tt eq_refl eq_refl).
  - exact (proj1 (proj2 (Init_invocation Scripts.executor_without_terraform_dir tt))
             "mkdir /env/terraform: read-only file system" tt eq_refl).
  - assert (In (EvRun (Samples.init_call true) "" (Some "exit status 1"))
               (trace (Init Samples.failing_debug tt))) as Hrun
      by (vm_compute; tauto).
    split; [exact Hrun |].
    exact (proj2 (proj2 (Init_invocation _ _)) _ _ _ Hrun).
Defined.

Lemma Apply_Destroy_succeed_with_the_runner_witness :
  (∃ c out, In (EvRun c out None) (trace (Apply Samples.three_files [] tt)))
  ∧ outcome (Apply Samples.three_files [] tt) = Ok tt
  ∧ outcome (Destroy Samples.failing [] tt) ≠ Ok tt.
Proof.
  assert (∃ c out, In (EvRun c out None) (trace (Apply Samples.three_files [] tt))) as Hrun
    by (eexists _, _; vm_compute; do 3 right; left; reflexivity).
  split; [exact Hrun |]. split.
  - exact (proj2 (proj1 (proj1 (Apply_Destroy_succeed_with_the_runner _ _ _))) Hrun).
  - vm_compute. discriminate.
Defined.
